(** * Dow2 model writer: OBJ / MTL serialisation

    A shallow embedding of [relic/chunk_formats/Dow2/model/writer.py] and the
    properties of its vertex-offset bookkeeping, name derivation, shader
    resolution and texture-slot dispatch.

    Python values are modelled as follows.
    - [str] is [string], holding the UTF-8 bytes of the text, so that one
      character may span several bytes; [int] is [Z]; [None]-able
      arguments are [option].
    - A text stream is the chronological list of what was sent to it: raw
      [stream.write] calls and calls of the token-level writer
      ([ObjWriter] / [MtlWriter]), whose own text formatting lives outside
      this file.
    - Code that writes and may raise is a function from the stream to the
      new stream and an outcome; a raise keeps whatever was written so far.
    - A generator is the finite trace of its yields, ended by exhaustion or
      by the exception raised while computing the next item. *)

From Stdlib Require Import Strings.String Strings.Ascii Lists.List.
From Stdlib Require Import ZArith.ZArith Bool.Bool Arith.PeanoNat micromega.Lia.
Import ListNotations.

Set Implicit Arguments.
Local Open Scope list_scope.
Local Open Scope string_scope.

(** ** Python built-ins used by the writer *)

Module Py.

Definition LF : string := String (ascii_of_nat 10) EmptyString.
Definition TAB : string := String (ascii_of_nat 9) EmptyString.

(** Truthiness of a [str]. *)
Definition truthy (s : string) : bool :=
  match s with EmptyString => false | String _ _ => true end.

(** [x or y] where [x] may be [None]. *)
Definition or_else (x : option string) (y : string) : string :=
  match x with
  | Some s => if truthy s then s else y
  | None => y
  end.

(** [s.rfind(c)] split: the text before and after the last [c]. *)
Fixpoint cut_last (c : ascii) (s : string) : option (string * string) :=
  match s with
  | EmptyString => None
  | String a r =>
      match cut_last c r with
      | Some (p, q) => Some (String a p, q)
      | None => if Ascii.eqb a c then Some (EmptyString, r) else None
      end
  end.

(** [s.rsplit(c, maxsplit=1)] for a one-character separator. *)
Definition rsplit1 (c : ascii) (s : string) : list string :=
  match cut_last c s with
  | Some (p, q) => [p; q]
  | None => [s]
  end.

(** A byte of the form 10xxxxxx continues the character begun before it. *)
Definition is_continuation (a : ascii) : bool :=
  match a with
  | Ascii _ _ _ _ _ _ b6 b7 => b7 && negb b6
  end.

Definition continues (s : string) : bool :=
  match s with
  | String a _ => is_continuation a
  | EmptyString => false
  end.

(** Iterating a [str] gives its characters as one-character strings: each
    byte together with the continuation bytes that follow it. *)
Fixpoint chars (s : string) : list string :=
  match s with
  | EmptyString => []
  | String a r =>
      match chars r with
      | c :: cs => if continues r then String a c :: cs
                   else String a EmptyString :: c :: cs
      | [] => [String a EmptyString]
      end
  end.

(** The number of bytes of [s] that begin a character. *)
Fixpoint char_starts (s : string) : nat :=
  match s with
  | EmptyString => 0
  | String a r => (if is_continuation a then 0 else 1) + char_starts r
  end.

(** [len(s)]: the number of characters; the first byte always begins
    one. *)
Definition len (s : string) : nat :=
  match s with
  | EmptyString => 0
  | String _ r => S (char_starts r)
  end.

(** [s.replace(a, b)] for one-character [a] and [b]. *)
Fixpoint replace (a b : ascii) (s : string) : string :=
  match s with
  | EmptyString => EmptyString
  | String x r => String (if Ascii.eqb x a then b else x) (replace a b r)
  end.

(** [s == c * len(s)]. *)
Fixpoint all_char (c : ascii) (s : string) : bool :=
  match s with
  | EmptyString => true
  | String a r => Ascii.eqb a c && all_char c r
  end.

(** [s.rstrip(c)]. *)
Fixpoint rstrip (c : ascii) (s : string) : string :=
  match s with
  | EmptyString => EmptyString
  | String a r =>
      match rstrip c r with
      | EmptyString => if Ascii.eqb a c then EmptyString else String a EmptyString
      | r' => String a r'
      end
  end.

Definition startswith (c : ascii) (s : string) : bool :=
  match s with
  | String a _ => Ascii.eqb a c
  | EmptyString => false
  end.

Fixpoint endswith (c : ascii) (s : string) : bool :=
  match s with
  | EmptyString => false
  | String a EmptyString => Ascii.eqb a c
  | String _ r => endswith c r
  end.

Definition contains (c : ascii) (s : string) : bool :=
  existsb (Ascii.eqb c) (list_ascii_of_string s).

End Py.

(** ** [os.path] (POSIX flavour) *)

Module PosixPath.

Definition sep : ascii := "/"%char.

(** [posixpath.split]: [i = p.rfind(sep) + 1], head and tail are [p[:i]]
    and [p[i:]], and trailing separators are stripped from the head
    unless it consists of separators only. *)
Definition split (p : string) : string * string :=
  let '(head, tail) :=
    match Py.cut_last sep p with
    | Some (before, after) => (before ++ String sep EmptyString, after)
    | None => (EmptyString, p)
    end in
  if Py.truthy head && negb (Py.all_char sep head)
  then (Py.rstrip sep head, tail)
  else (head, tail).

(** [posixpath.join(a, b)] with one trailing component. *)
Definition join (a b : string) : string :=
  if Py.startswith sep b then b
  else if negb (Py.truthy a) || Py.endswith sep a then a ++ b
  else a ++ String sep EmptyString ++ b.

(** [posixpath.splitext] ([genericpath._splitext] with separator "/", no
    alternative separator and extension separator "."): the extension
    starts at the last dot, provided that dot lies after the last
    separator and some character between the two is not a dot. *)
Definition splitext (p : string) : string * string :=
  let '(dirpart, filename) :=
    match Py.cut_last sep p with
    | Some (before, after) => (before ++ String sep EmptyString, after)
    | None => (EmptyString, p)
    end in
  match Py.cut_last "."%char filename with
  | Some (stem, ext) =>
      if Py.all_char "."%char stem then (p, EmptyString)
      else (dirpart ++ stem, String "."%char ext)
  | None => (p, EmptyString)
  end.

End PosixPath.

(** ** Exceptions and the stream monad *)

Inductive ValueErrorKind : Type :=
| NotEnoughValues (expected got : nat)
    (* not enough values to unpack (expected 2, got 1) *)
| TooManyValues (expected : nat)
    (* too many values to unpack (expected 2) *)
| NotAValidMember (value : string) (enum : string).
    (* 'x' is not a valid TextureType *)

Inductive Exception : Type :=
| ValueError (kind : ValueErrorKind)
| IndexError
| NotImplementedError (args : list string).

Inductive outcome (A : Type) : Type :=
| Return (a : A)
| Raise (e : Exception).
Arguments Raise {A} e.

(** A computation over a stream of events of type [Ev]. *)
Definition IO (Ev A : Type) : Type := list Ev -> list Ev * outcome A.

Definition ret {Ev A} (a : A) : IO Ev A := fun s => (s, Return a).
Definition raise {Ev A} (e : Exception) : IO Ev A := fun s => (s, Raise e).
Definition emit {Ev} (e : Ev) : IO Ev unit := fun s => ((s ++ [e])%list, Return tt).
Definition bind {Ev A B} (m : IO Ev A) (k : A -> IO Ev B) : IO Ev B :=
  fun s =>
    match m s with
    | (s', Return a) => k a s'
    | (s', Raise e) => (s', Raise e)
    end.
Definition lift {Ev A} (o : outcome A) : IO Ev A := fun s => (s, o).

Declare Scope io_scope.
Delimit Scope io_scope with io.
Notation "x <- m ;; k" := (bind m (fun x => k))
  (at level 61, m at next level, right associativity) : io_scope.
Notation "' pat <- m ;; k" := (bind m (fun x => let pat := x in k))
  (at level 61, pat pattern, m at next level, right associativity) : io_scope.
Notation "m ;; k" := (bind m (fun _ => k))
  (at level 61, right associativity) : io_scope.

(** [for x in l: body(x)] *)
Fixpoint for_each {Ev A} (l : list A) (body : A -> IO Ev unit) : IO Ev unit :=
  match l with
  | [] => ret tt
  | x :: r => bind (body x) (fun _ => for_each r body)
  end.

(** [a, b = xs] *)
Definition unpack2 (xs : list string) : outcome (string * string) :=
  match xs with
  | [a; b] => Return (a, b)
  | [] | [_] => Raise (ValueError (NotEnoughValues 2 (length xs)))
  | _ => Raise (ValueError (TooManyValues 2))
  end.

(** [xs[i]] for a non-negative [i]. *)
Definition getitem {A} (xs : list A) (i : nat) : outcome A :=
  match nth_error xs i with
  | Some x => Return x
  | None => Raise IndexError
  end.

(** ** Material chunks *)

(** Modelled from the spec: [MaterialVarType] is declared in
    [relic.chunk_formats.Shared.mtrl_chunk], which is not part of the
    sources at hand; the data model gives a variable's kind as Texture or
    anything else. *)
Inductive MaterialVarType : Type :=
| Texture
| OtherVarType (tag : nat).

Definition MaterialVarType_ne (a b : MaterialVarType) : bool :=
  match a, b with
  | Texture, Texture => false
  | OtherVarType m, OtherVarType n => negb (Nat.eqb m n)
  | _, _ => true
  end.

(** [VarChunk] and [MtrlChunk], as far as the writer reads them;
    [shader_name] stands for [chunk.info.shader_name]. *)
Record VarChunk : Type := {
  var_type : MaterialVarType;
  property_name : string;
  args : string
}.

Record MtrlChunk : Type := {
  name : string;
  shader_name : string;
  vars : list VarChunk
}.

(** ** Geometry: [write_trim_data_to_obj], [write_model_to_obj] *)

Section Geometry.

(** The component type of positions, normals and texture coordinates;
    the writer only passes the values through. *)
Variable scalar : Type.

Record Vertex : Type := {
  position : scalar * scalar * scalar;
  normal : scalar * scalar * scalar;
  uv : scalar * scalar
}.

(** [TrimDataChunk], as far as the writer reads it. *)
Record TrimDataChunk : Type := {
  material_name : string;
  vertexes : list Vertex;
  indexes : list Z
}.

(** What reaches the geometry stream: raw text, or a call of one of
    [ObjWriter]'s methods with its arguments. *)
Inductive ObjEvent : Type :=
| StreamWrite (text : string)
| MaterialLibrary (name : string)
| ObjectName (name : string)
| VertexPosition (x y z : scalar)
| VertexNormal (x y z : scalar)
| VertexUv (u v : scalar)
| UseMaterial (name : string)
| IndexFace (i j k : Z) (offset : Z) (zero_based : bool).

Definition write_vertex_position (p : scalar * scalar * scalar) : IO ObjEvent unit :=
  let '(x, y, z) := p in emit (VertexPosition x y z).
Definition write_vertex_normal (p : scalar * scalar * scalar) : IO ObjEvent unit :=
  let '(x, y, z) := p in emit (VertexNormal x y z).
Definition write_vertex_uv (p : scalar * scalar) : IO ObjEvent unit :=
  let '(u, v) := p in emit (VertexUv u v).

(** The right-hand side of [_, name = name or chunk.material_name.rsplit(".", maxsplit=1)]:
    a truthy [name] is the string itself, which unpacks character by
    character; otherwise it is the list produced by [rsplit]. *)
Definition name_source (name : option string) (material : string) : list string :=
  match name with
  | Some n => if Py.truthy n then Py.chars n else Py.rsplit1 "."%char material
  | None => Py.rsplit1 "."%char material
  end.

Local Open Scope io_scope.

Definition write_trim_data_to_obj (chunk : TrimDataChunk) (name : option string)
    (v_offset : Z) (validate axis_fix : bool) : IO ObjEvent Z :=
  emit (StreamWrite (Py.LF ++ "# Object" ++ Py.LF)) ;;
  '(_, name) <- lift (unpack2 (name_source name (material_name chunk))) ;;
  emit (ObjectName name) ;;
  emit (StreamWrite (Py.TAB ++ "# Vertexes" ++ Py.LF)) ;;
  for_each (vertexes chunk) (fun v =>
    emit (StreamWrite Py.TAB) ;;
    write_vertex_position (position v) ;;
    emit (StreamWrite Py.TAB) ;;
    write_vertex_normal (normal v) ;;
    emit (StreamWrite Py.TAB) ;;
    write_vertex_uv (uv v) ;;
    emit (StreamWrite Py.LF)) ;;
  emit (StreamWrite ("# Material" ++ Py.LF)) ;;
  emit (UseMaterial (material_name chunk)) ;;
  emit (StreamWrite (Py.TAB ++ "# Indexes" ++ Py.LF)) ;;
  for_each (seq 0 (length (indexes chunk) / 3)) (fun index =>
    emit (StreamWrite Py.TAB) ;;
    i <- lift (getitem (indexes chunk) (3 * index)) ;;
    j <- lift (getitem (indexes chunk) (3 * index + 1)) ;;
    k <- lift (getitem (indexes chunk) (3 * index + 2)) ;;
    emit (IndexFace i j k v_offset true)) ;;
  ret (v_offset + Z.of_nat (length (vertexes chunk)))%Z.

(** [ModelChunky], flattened: [meshs] stands for
    [chunk.modl.mesh.mgrp.mesh.imdg.mesh.imod.meshs] with each element
    already projected to its [trim.data], and [mtrls] for
    [chunk.modl.mtrls]. *)
Record ModelChunky : Type := {
  meshs : list TrimDataChunk;
  mtrls : list MtrlChunk
}.

Definition write_mtllib_to_obj (mtl_path : string) : IO ObjEvent unit :=
  emit (MaterialLibrary mtl_path).

(** Writes the name of the material library into the OBJ stream and
    returns the path of the MTL file next to [obj_path]. *)
Definition write_matlib_name (obj_path : string) : IO ObjEvent string :=
  let '(dirname, filename) := PosixPath.split obj_path in
  let '(filename, _) := PosixPath.splitext filename in
  let filename := filename ++ ".mtl" in
  emit (MaterialLibrary filename) ;;
  ret (PosixPath.join dirname filename).

(** The loop of [write_model_to_obj]:
    [v_offset += write_trim_data_to_obj(stream, mesh.trim.data, v_offset=v_offset)]. *)
Fixpoint write_model_loop (l : list TrimDataChunk) (v_offset : Z) : IO ObjEvent Z :=
  match l with
  | [] => ret v_offset
  | mesh :: rest =>
      r <- write_trim_data_to_obj mesh None v_offset true true ;;
      write_model_loop rest (v_offset + r)%Z
  end.

Definition write_model_to_obj (chunk : ModelChunky) : IO ObjEvent Z :=
  write_model_loop (meshs chunk) 0%Z.

End Geometry.

Arguments StreamWrite {scalar} text.
Arguments MaterialLibrary {scalar} name.
Arguments ObjectName {scalar} name.
Arguments UseMaterial {scalar} name.
Arguments IndexFace {scalar} i j k offset zero_based.


(** ** Materials: texture slots and shaders *)

Inductive TextureType : Type :=
| Team | Dirt | BadgeSecondary | BadgePrimary | Normal
| Diffuse | Emissive | Specular | Occlusion | Gloss.

Definition TextureType_value (t : TextureType) : string :=
  match t with
  | Team => "teamTex"
  | Dirt => "dirtTex"
  | BadgeSecondary => "badge2Tex"
  | BadgePrimary => "badge1Tex"
  | Normal => "normalMap"
  | Diffuse => "diffuseTex"
  | Emissive => "emissiveTex"
  | Specular => "specularTex"
  | Occlusion => "occlusionTex"
  | Gloss => "glossTex"
  end.

(** The members in definition order. *)
Definition TextureType_members : list TextureType :=
  [Team; Dirt; BadgeSecondary; BadgePrimary; Normal;
   Diffuse; Emissive; Specular; Occlusion; Gloss].

(** [TextureType.__eq__] between two members: the [isinstance(other, str)]
    test fails and the comparison falls back to object identity. *)
Definition TextureType_eq (a b : TextureType) : bool :=
  match a, b with
  | Team, Team | Dirt, Dirt | BadgeSecondary, BadgeSecondary
  | BadgePrimary, BadgePrimary | Normal, Normal | Diffuse, Diffuse
  | Emissive, Emissive | Specular, Specular | Occlusion, Occlusion
  | Gloss, Gloss => true
  | _, _ => false
  end.

(** [TextureType(value)]: lookup of a member by value. *)
Definition TextureType_call (value : string) : outcome TextureType :=
  match find (fun m => String.eqb (TextureType_value m) value) TextureType_members with
  | Some m => Return m
  | None => Raise (ValueError (NotAValidMember value "TextureType"))
  end.

Inductive SupportedShaders : Type :=
| Dow2_Unit | Dow2_Unit_2Uv.

Definition SupportedShaders_value (s : SupportedShaders) : string :=
  match s with
  | Dow2_Unit => "dow2_unit"
  | Dow2_Unit_2Uv => "dow2_unit_2uv"
  end.

(** [SupportedShaders.__eq__] against a [str]: comparison by value. *)
Definition SupportedShaders_eq_str (self : SupportedShaders) (other : string) : bool :=
  String.eqb (SupportedShaders_value self) other.

(** [x in xs] for a [str] and a list of members. *)
Definition str_in (x : string) (xs : list SupportedShaders) : bool :=
  existsb (fun m => SupportedShaders_eq_str m x) xs.

(** A generator object, unrolled. *)
Inductive Gen (A : Type) : Type :=
| Stop
| Yield (a : A) (rest : Gen A)
| Throw (e : Exception).
Arguments Stop {A}.
Arguments Throw {A} e.

Fixpoint fetch_textures_from_dow2_unit (chunks : list VarChunk)
  : Gen (TextureType * string) :=
  match chunks with
  | [] => Stop
  | chunk :: rest =>
      if MaterialVarType_ne (var_type chunk) Texture
      then fetch_textures_from_dow2_unit rest
      else
        match TextureType_call (property_name chunk) with
        | Raise e => Throw e
        | Return type =>
            let path := args chunk in
            Yield (type, path) (fetch_textures_from_dow2_unit rest)
        end
  end.

Definition fetch_textures_from_mtrl (chunk : MtrlChunk)
  : outcome (Gen (TextureType * string)) :=
  if str_in (shader_name chunk) [Dow2_Unit; Dow2_Unit_2Uv]
  then Return (fetch_textures_from_dow2_unit (vars chunk))
  else Raise (NotImplementedError [shader_name chunk]).

(** ** Materials: [write_mtrl_to_mtl] *)

(** What reaches the material stream: a call of one of [MtlWriter]'s
    methods with its arguments. *)
Inductive MtlEvent : Type :=
| DefaultTexture (name : string)
| UnsupportedTexture (path label : string)
| TextureEmissive (path : string)
| TextureDiffuse (path : string)
| TextureAlpha (path : string)
| TextureNormal (path : string)
| TextureSpecular (path : string).

(** Lines 137-141: the path handed to the writer for one texture. *)
Definition full_texture_path (texture_root : option string) (texture_ext : string)
    (force_valid : bool) (texture : string) : string :=
  let full_texture :=
    match texture_root with
    | Some root => if Py.truthy root then PosixPath.join root texture else texture
    | None => texture
    end in
  let full_texture := full_texture ++ texture_ext in
  if force_valid then
    let '(d, b) := PosixPath.split full_texture in
    PosixPath.join d (Py.replace " "%char "_"%char b)
  else full_texture.

(** Lines 142-166: the [if]/[elif] chain on the slot. *)
Definition write_texture (tex_type : TextureType) (full_texture : string)
  : IO MtlEvent unit :=
  if TextureType_eq tex_type Team then
    emit (UnsupportedTexture full_texture "Team")
  else if TextureType_eq tex_type Dirt then
    emit (UnsupportedTexture full_texture "Dirt")
  else if TextureType_eq tex_type BadgePrimary then
    emit (UnsupportedTexture full_texture "Badge 1")
  else if TextureType_eq tex_type BadgeSecondary then
    emit (UnsupportedTexture full_texture "Badge 2")
  else if TextureType_eq tex_type Emissive then
    emit (TextureEmissive full_texture)
  else if TextureType_eq tex_type Occlusion then
    emit (UnsupportedTexture full_texture "Occlusion")
  else if TextureType_eq tex_type Gloss then
    emit (UnsupportedTexture full_texture "Gloss")
  else if TextureType_eq tex_type Diffuse then
    bind (emit (TextureDiffuse full_texture))
         (fun _ => emit (TextureAlpha full_texture))
  else if TextureType_eq tex_type Normal then
    emit (TextureNormal full_texture)
  else if TextureType_eq tex_type Specular then
    emit (TextureSpecular full_texture)
  else
    raise (NotImplementedError []).

(** The [for] loop of [write_mtrl_to_mtl] over the generator. *)
Fixpoint write_textures (texture_root : option string) (texture_ext : string)
    (force_valid : bool) (g : Gen (TextureType * string)) : IO MtlEvent unit :=
  match g with
  | Stop => ret tt
  | Throw e => raise e
  | Yield (tex_type, texture) rest =>
      bind (write_texture tex_type
              (full_texture_path texture_root texture_ext force_valid texture))
           (fun _ => write_textures texture_root texture_ext force_valid rest)
  end.

Section MaterialWriter.

(** The text [MtlWriter] sends to the stream for each call; it is defined
    in [relic.file_formats.wavefront_obj]. *)
Variable mtl_text : MtlEvent -> string.

(** The number of characters in the stream. *)
Definition text_length (s : list MtlEvent) : Z :=
  fold_right (fun e n => (Z.of_nat (String.length (mtl_text e)) + n)%Z) 0%Z s.

(** [stream.tell()] *)
Definition tell : IO MtlEvent Z :=
  fun s => (s, Return (text_length s)).

Local Open Scope io_scope.

Definition write_mtrl_to_mtl (chunk : MtrlChunk) (texture_root texture_ext : option string)
    (force_valid : bool) : IO MtlEvent Z :=
  let texture_ext := Py.or_else texture_ext "" in
  start <- tell ;;
  emit (DefaultTexture (name chunk)) ;;
  textures <- lift (fetch_textures_from_mtrl chunk) ;;
  write_textures texture_root texture_ext force_valid textures ;;
  stop <- tell ;;
  ret (stop - start)%Z.

(** The loop of [write_model_to_mtl]:
    [written += write_mtrl_to_mtl(stream, mtrl, texture_root, texture_ext)]. *)
Fixpoint write_model_to_mtl_loop (l : list MtrlChunk) (texture_root texture_ext : option string)
    (written : Z) : IO MtlEvent Z :=
  match l with
  | [] => ret written
  | mtrl :: rest =>
      n <- write_mtrl_to_mtl mtrl texture_root texture_ext true ;;
      write_model_to_mtl_loop rest texture_root texture_ext (written + n)%Z
  end.

Definition write_model_to_mtl {scalar} (chunk : ModelChunky scalar)
    (texture_root texture_ext : option string) : IO MtlEvent Z :=
  write_model_to_mtl_loop (mtrls chunk) texture_root texture_ext 0%Z.

(** [dump_model_as_obj] works on two streams; an exception leaves both as
    they are at that moment. *)
Definition dump_model_as_obj {scalar} (chunk : ModelChunky scalar) (mtl_path : string)
    (texture_root texture_ext : option string)
    (obj_stream : list (ObjEvent scalar)) (mtl_stream : list MtlEvent)
  : list (ObjEvent scalar) * list MtlEvent * outcome unit :=
  match (@write_mtllib_to_obj scalar mtl_path ;; write_model_to_obj chunk) obj_stream with
  | (obj_stream', Raise e) => (obj_stream', mtl_stream, Raise e)
  | (obj_stream', Return _) =>
      match write_model_to_mtl chunk texture_root texture_ext mtl_stream with
      | (mtl_stream', Raise e) => (obj_stream', mtl_stream', Raise e)
      | (mtl_stream', Return _) => (obj_stream', mtl_stream', Return tt)
      end
  end.

End MaterialWriter.

(** ** Traces of the geometry writer

    The events one call of [write_trim_data_to_obj] appends, written out
    as lists; the lemmas below show the loops produce exactly these. *)

Section GeometryTrace.

Variable scalar : Type.

Definition vertex_events (v : Vertex scalar) : list (ObjEvent scalar) :=
  let '(x, y, z) := position v in
  let '(nx, ny, nz) := normal v in
  let '(tu, tv) := uv v in
  [StreamWrite Py.TAB; VertexPosition x y z;
   StreamWrite Py.TAB; VertexNormal nx ny nz;
   StreamWrite Py.TAB; VertexUv tu tv;
   StreamWrite Py.LF].

(** The index list cut into consecutive triples; a remainder of one or
    two indexes is not a triangle. *)
Fixpoint triangles (idx : list Z) : list (Z * Z * Z) :=
  match idx with
  | i :: j :: k :: rest => (i, j, k) :: triangles rest
  | _ => []
  end.

Definition face_events (v_offset : Z) (tri : Z * Z * Z) : list (ObjEvent scalar) :=
  let '(i, j, k) := tri in
  [StreamWrite Py.TAB; IndexFace i j k v_offset true].

Definition header_events (label : string) : list (ObjEvent scalar) :=
  [StreamWrite (Py.LF ++ "# Object" ++ Py.LF); ObjectName label;
   StreamWrite (Py.TAB ++ "# Vertexes" ++ Py.LF)].

Definition material_events (material : string) : list (ObjEvent scalar) :=
  [StreamWrite ("# Material" ++ Py.LF); UseMaterial material;
   StreamWrite (Py.TAB ++ "# Indexes" ++ Py.LF)].

Definition trim_events (chunk : TrimDataChunk scalar) (label : string) (v_offset : Z)
  : list (ObjEvent scalar) :=
  (header_events label
   ++ flat_map vertex_events (vertexes chunk)
   ++ material_events (material_name chunk)
   ++ flat_map (face_events v_offset) (triangles (indexes chunk)))%list.

(** The offsets handed to [IndexFace], in stream order. *)
Fixpoint face_offsets (s : list (ObjEvent scalar)) : list Z :=
  match s with
  | [] => []
  | IndexFace _ _ _ offset _ :: r => offset :: face_offsets r
  | _ :: r => face_offsets r
  end.

Definition vertex_count (chunk : TrimDataChunk scalar) : Z :=
  Z.of_nat (length (vertexes chunk)).

(** The sum of the vertex counts of a list of sub-meshes. *)
Definition total_vertex_count (l : list (TrimDataChunk scalar)) : Z :=
  fold_right (fun chunk acc => (vertex_count chunk + acc)%Z) 0%Z l.

(** The value [v_offset] holds after the loop of [write_model_to_obj] has
    run over [l]: each round adds the callee's result, which already
    contains the offset it was given. *)
Fixpoint offset_after (l : list (TrimDataChunk scalar)) (v_offset : Z) : Z :=
  match l with
  | [] => v_offset
  | chunk :: rest => offset_after rest (v_offset + (v_offset + vertex_count chunk))%Z
  end.

(** The number of vertices before each sub-mesh of a list, starting from
    [before]: the offsets under which consecutive blocks of the global
    index space begin. *)
Fixpoint vertices_before (l : list (TrimDataChunk scalar)) (before : Z) : list Z :=
  match l with
  | [] => []
  | chunk :: rest => before :: vertices_before rest (before + vertex_count chunk)%Z
  end.

(** A material name from which a label can be derived. *)
Definition has_separator (chunk : TrimDataChunk scalar) : Prop :=
  Py.contains "."%char (material_name chunk) = true.

(** The positions, normals and texture coordinates handed to the writer,
    in stream order. *)
Fixpoint positions_written (s : list (ObjEvent scalar))
  : list (scalar * scalar * scalar) :=
  match s with
  | [] => []
  | VertexPosition x y z :: r => (x, y, z) :: positions_written r
  | _ :: r => positions_written r
  end.

Fixpoint normals_written (s : list (ObjEvent scalar))
  : list (scalar * scalar * scalar) :=
  match s with
  | [] => []
  | VertexNormal x y z :: r => (x, y, z) :: normals_written r
  | _ :: r => normals_written r
  end.

Fixpoint uvs_written (s : list (ObjEvent scalar)) : list (scalar * scalar) :=
  match s with
  | [] => []
  | VertexUv u v :: r => (u, v) :: uvs_written r
  | _ :: r => uvs_written r
  end.

(** The offsets [write_model_to_obj]'s loop hands to the sub-meshes of a
    list, in order, when it starts from [v_offset]. *)
Fixpoint offsets_passed (l : list (TrimDataChunk scalar)) (v_offset : Z) : list Z :=
  match l with
  | [] => []
  | chunk :: rest =>
      v_offset :: offsets_passed rest (v_offset + (v_offset + vertex_count chunk))%Z
  end.

(** The face offsets a list of sub-meshes leaves in the stream when the
    sub-meshes are written under the given offsets. *)
Fixpoint face_offsets_of (l : list (TrimDataChunk scalar)) (offsets : list Z) : list Z :=
  match l, offsets with
  | chunk :: rest, o :: os =>
      (repeat o (length (indexes chunk) / 3) ++ face_offsets_of rest os)%list
  | _, _ => []
  end.

(** Every sub-mesh but the last one is without vertices. *)
Fixpoint only_last_has_vertices (l : list (TrimDataChunk scalar)) : Prop :=
  match l with
  | [] => True
  | chunk :: rest =>
      match rest with
      | [] => True
      | _ :: _ => vertex_count chunk = 0%Z /\ only_last_has_vertices rest
      end
  end.

End GeometryTrace.

(** ** Traces of generators *)

Fixpoint yields {A} (g : Gen A) : list A :=
  match g with
  | Stop | Throw _ => []
  | Yield a rest => a :: yields rest
  end.

Fixpoint ending {A} (g : Gen A) : option Exception :=
  match g with
  | Stop => None
  | Throw e => Some e
  | Yield _ rest => ending rest
  end.

(** How a loop over a generator with this ending finishes. *)
Definition outcome_of_ending (e : option Exception) : outcome unit :=
  match e with
  | None => Return tt
  | Some e => Raise e
  end.

(** One character: a first byte and continuation bytes only after it. *)
Definition single_char (c : string) : Prop :=
  exists x rest, c = String x rest /\ Py.char_starts rest = 0.

(** A property name that is the wire string of some slot. *)
Definition known_slot (property : string) : Prop :=
  exists t, TextureType_value t = property.


(** ** Sample inputs *)

Module Samples.

Definition origin : Vertex Z :=
  {| position := (0, 0, 0)%Z; normal := (0, 0, 1)%Z; uv := (0, 0)%Z |}.

(** A sub-mesh with a single vertex and one (degenerate) triangle on it. *)
Definition point_mesh : TrimDataChunk Z :=
  {| material_name := "weapon.rifle"; vertexes := [origin]; indexes := [0; 0; 0]%Z |}.

Definition two_meshes : ModelChunky Z :=
  {| meshs := [point_mesh; point_mesh]; mtrls := [] |}.

Definition three_meshes : ModelChunky Z :=
  {| meshs := [point_mesh; point_mesh; point_mesh]; mtrls := [] |}.

Definition helmet_mesh : TrimDataChunk Z :=
  {| material_name := "teamcolor.helmet";
     vertexes := [origin; origin; origin];
     indexes := [0; 1; 2]%Z |}.

Definition plain_mesh : TrimDataChunk Z :=
  {| material_name := "rifle"; vertexes := [origin]; indexes := [0; 0; 0]%Z |}.

(** The letter e with an acute accent, U+00E9: one character, two bytes. *)
Definition e_acute : string :=
  String (ascii_of_nat 195) (String (ascii_of_nat 169) EmptyString).

End Samples.

(** The test of the loop of [fetch_textures_from_dow2_unit], positively. *)
Definition is_texture (chunk : VarChunk) : bool :=
  negb (MaterialVarType_ne (var_type chunk) Texture).

(** A variable the extraction passes without raising: not a texture, or a
    texture in a known slot. *)
Definition extractable (chunk : VarChunk) : Prop :=
  var_type chunk = Texture -> known_slot (property_name chunk).

(** What a texture variable in a known slot turns into. *)
Definition extracted_as (chunk : VarChunk) (item : TextureType * string) : Prop :=
  TextureType_value (fst item) = property_name chunk /\ snd item = args chunk.

(** ** Traces of the material writer *)

(** The directives of each slot, as a table. *)
Definition slot_events (tex_type : TextureType) (full_texture : string) : list MtlEvent :=
  match tex_type with
  | Team => [UnsupportedTexture full_texture "Team"]
  | Dirt => [UnsupportedTexture full_texture "Dirt"]
  | BadgePrimary => [UnsupportedTexture full_texture "Badge 1"]
  | BadgeSecondary => [UnsupportedTexture full_texture "Badge 2"]
  | Emissive => [TextureEmissive full_texture]
  | Occlusion => [UnsupportedTexture full_texture "Occlusion"]
  | Gloss => [UnsupportedTexture full_texture "Gloss"]
  | Diffuse => [TextureDiffuse full_texture; TextureAlpha full_texture]
  | Normal => [TextureNormal full_texture]
  | Specular => [TextureSpecular full_texture]
  end.

Definition texture_events (texture_root : option string) (texture_ext : string)
    (force_valid : bool) (item : TextureType * string) : list MtlEvent :=
  slot_events (fst item)
    (full_texture_path texture_root texture_ext force_valid (snd item)).

(** The path before the [force_valid] step: the root, when given and not
    empty, joined with the texture, and the extension appended. *)
Definition joined_path (texture_root : option string) (texture_ext : string)
    (texture : string) : string :=
  full_texture_path texture_root texture_ext false texture.

(** A directory prefix as [split] followed by [join] returns it: a run of
    separators at its end shrinks to one, unless the prefix is separators
    only. *)
Definition collapse_trailing (dir : string) : string :=
  if Py.all_char PosixPath.sep dir then dir
  else Py.rstrip PosixPath.sep dir ++ String PosixPath.sep "".

(** The head [split] returns for a path whose directory part is [dir]. *)
Definition head_of (dir : string) : string :=
  if Py.all_char "/"%char dir then dir else Py.rstrip "/"%char dir.

(** A texture variable of the diffuse slot. *)
Definition is_diffuse (chunk : VarChunk) : bool :=
  is_texture chunk && String.eqb (property_name chunk) "diffuseTex".

(** A material [write_mtrl_to_mtl] gets through: its shader is one of the
    two supported ones and all its variables are extractable. *)
Definition writable (chunk : MtrlChunk) : Prop :=
  (shader_name chunk = "dow2_unit" \/ shader_name chunk = "dow2_unit_2uv")
  /\ Forall extractable (vars chunk).

(** The directives one call of [write_mtrl_to_mtl] appends when nothing
    stops it early. *)
Definition material_events' (chunk : MtrlChunk) (texture_root texture_ext : option string)
    (force_valid : bool) : list MtlEvent :=
  DefaultTexture (name chunk)
    :: flat_map (texture_events texture_root (Py.or_else texture_ext "") force_valid)
         (yields (fetch_textures_from_dow2_unit (vars chunk))).

(** The directives [write_model_to_mtl] appends for a list of materials
    it gets through. *)
Definition materials_events (l : list MtrlChunk) (texture_root texture_ext : option string)
  : list MtlEvent :=
  flat_map (fun mtrl => material_events' mtrl texture_root texture_ext true) l.

Module MaterialSamples.

Definition rifle : MtrlChunk :=
  {| name := "rifle";
     shader_name := "dow2_unit";
     vars := [ {| var_type := Texture;
                  property_name := "diffuseTex";
                  args := "tex/rifle_d" |} ] |}.

Definition spaced : MtrlChunk :=
  {| name := "spaced";
     shader_name := "dow2_unit";
     vars := [ {| var_type := Texture;
                  property_name := "diffuseTex";
                  args := "tex dir/rifle d" |} ] |}.

Definition terrain : MtrlChunk :=
  {| name := "terrain";
     shader_name := "dow2_terrain";
     vars := [ {| var_type := Texture;
                  property_name := "diffuseTex";
                  args := "tex/ground_d" |} ] |}.

Definition helmet : MtrlChunk :=
  {| name := "helmet";
     shader_name := "dow2_unit_2uv";
     vars := [ {| var_type := Texture;
                  property_name := "normalMap";
                  args := "tex dir/rifle helmet" |} ] |}.

Definition mixed_vars : list VarChunk :=
  [ {| var_type := OtherVarType 1; property_name := "uvScale"; args := "1.0" |};
    {| var_type := Texture; property_name := "normalMap"; args := "tex/n" |};
    {| var_type := Texture; property_name := "diffuseTex"; args := "tex/d" |} ].

Definition stray_var : VarChunk :=
  {| var_type := Texture; property_name := "lightMap"; args := "tex/l" |}.

(** One character of text per writer call, to run [tell] on. *)
Definition one_char (e : MtlEvent) : string := "#".

End MaterialSamples.

(** * Properties *)

(** ** The stream monad *)

Lemma bind_return {Ev A B} (m : IO Ev A) (k : A -> IO Ev B) s s' a :
  m s = (s', Return a) -> bind m k s = k a s'.
Proof. intros H. unfold bind. now rewrite H. Qed.

Lemma bind_raise {Ev A B} (m : IO Ev A) (k : A -> IO Ev B) s s' e :
  m s = (s', Raise e) -> bind m k s = (s', Raise e).
Proof. intros H. unfold bind. now rewrite H. Qed.

Lemma bind_emit {Ev B} (e : Ev) (k : unit -> IO Ev B) s :
  bind (emit e) k s = k tt (s ++ [e])%list.
Proof. reflexivity. Qed.

Lemma bind_lift_return {Ev A B} (a : A) (k : A -> IO Ev B) s :
  bind (lift (Return a)) k s = k a s.
Proof. reflexivity. Qed.

Lemma bind_lift_raise {Ev A B} e (k : A -> IO Ev B) s :
  bind (lift (Raise e)) k s = (s, Raise e).
Proof. reflexivity. Qed.

Lemma for_each_app {Ev A} (body : A -> IO Ev unit) (out : A -> list Ev) :
  (forall x s, body x s = ((s ++ out x)%list, Return tt)) ->
  forall l s, for_each l body s = ((s ++ flat_map out l)%list, Return tt).
Proof.
  intros Hbody l. induction l as [|x r IH]; intros s; simpl.
  - now rewrite app_nil_r.
  - rewrite (bind_return _ _ _ (Hbody x s)), IH. now rewrite app_assoc.
Qed.

(** ** Strings *)

Module PyFacts.

Lemma cut_last_some c s p q :
  Py.cut_last c s = Some (p, q) ->
  s = p ++ String c q /\ Py.contains c q = false.
Proof.
  revert p q. induction s as [|a r IH]; intros p q; simpl; [discriminate|].
  destruct (Py.cut_last c r) as [[p' q']|] eqn:E.
  - intros H. injection H as <- <-. destruct (IH _ _ eq_refl) as [-> Hq].
    now split.
  - destruct (Ascii.eqb a c) eqn:Eac; [|discriminate].
    intros H. injection H as <- <-. apply Ascii.eqb_eq in Eac. subst a.
    split; [reflexivity|].
    clear IH. revert E. unfold Py.contains.
    induction r as [|b r IHr]; simpl; [reflexivity|].
    destruct (Py.cut_last c r) as [[p' q']|]; [discriminate|].
    destruct (Ascii.eqb b c) eqn:Ebc; [discriminate|].
    intros _. rewrite Ascii.eqb_sym, Ebc. simpl. now apply IHr.
Qed.

Lemma cut_last_none c s :
  Py.cut_last c s = None <-> Py.contains c s = false.
Proof.
  unfold Py.contains. induction s as [|a r IH]; simpl; [tauto|].
  rewrite (Ascii.eqb_sym c a).
  destruct (Py.cut_last c r) as [[p q]|].
  - destruct IH as [_ IH]. split; [discriminate|].
    intros H. apply orb_false_iff in H. destruct H as [_ H].
    specialize (IH H). discriminate.
  - destruct IH as [IH _]. specialize (IH eq_refl). rewrite IH.
    destruct (Ascii.eqb a c); simpl; split; congruence.
Qed.

Lemma contains_cut_last c s :
  Py.contains c s = true -> exists p q, Py.cut_last c s = Some (p, q).
Proof.
  intros H. destruct (Py.cut_last c s) as [[p q]|] eqn:E; [eauto|].
  apply cut_last_none in E. congruence.
Qed.

End PyFacts.

(** ** The geometry writer *)

Section GeometryFacts.

Variable scalar : Type.

Lemma nth_error_after_prefix (pre l : list Z) (a i : nat) :
  length pre = a -> nth_error (pre ++ l) (a + i) = nth_error l i.
Proof.
  intros <-. rewrite nth_error_app2 by lia. f_equal. lia.
Qed.

(** The loop over [range(len(indexes) // 3)] reads exactly the consecutive
    triples and never indexes out of range. *)
Lemma face_loop_run (v_offset : Z) (n : nat) :
  forall (a : nat) (pre l : list Z) (s : list (ObjEvent scalar)),
    length pre = 3 * a ->
    length l / 3 = n ->
    for_each (seq a n) (fun index =>
      bind (emit (StreamWrite Py.TAB)) (fun _ =>
      bind (lift (getitem (pre ++ l) (3 * index))) (fun i =>
      bind (lift (getitem (pre ++ l) (3 * index + 1))) (fun j =>
      bind (lift (getitem (pre ++ l) (3 * index + 2))) (fun k =>
      emit (IndexFace i j k v_offset true)))))) s
    = ((s ++ flat_map (face_events scalar v_offset) (triangles l))%list, Return tt).
Proof.
  induction n as [|n IH]; intros a pre l s Hpre Hn.
  - assert (Hl : length l < 3).
    { destruct (Nat.lt_ge_cases (length l) 3) as [H|H]; [exact H|].
      pose proof (Nat.Div0.div_le_mono 3 (length l) 3 H) as Hd.
      rewrite Nat.div_same in Hd by lia. lia. }
    destruct l as [|x [|y [|z l']]]; simpl in Hl; try lia;
      simpl; now rewrite app_nil_r.
  - destruct l as [|x [|y [|z l']]]; try (simpl in Hn; discriminate).
    assert (Hn' : length l' / 3 = n).
    { change (length (x :: y :: z :: l')) with (1 * 3 + length l') in Hn.
      rewrite Nat.div_add_l in Hn by lia. lia. }
    cbn [seq for_each triangles flat_map].
    erewrite bind_return.
    2:{ rewrite bind_emit. unfold getitem.
        replace (3 * a) with (3 * a + 0) at 1 by lia.
        rewrite !nth_error_after_prefix by assumption.
        cbn [nth_error]. rewrite !bind_lift_return. reflexivity. }
    replace (pre ++ x :: y :: z :: l')%list with ((pre ++ [x; y; z]) ++ l')%list
      by now rewrite <- app_assoc.
    rewrite (IH (S a) (pre ++ [x; y; z])%list l').
    + f_equal. unfold face_events at 2. now rewrite <- !app_assoc.
    + rewrite length_app. simpl. lia.
    + exact Hn'.
Qed.

Lemma vertex_loop_run (vs : list (Vertex scalar)) (s : list (ObjEvent scalar)) :
  for_each vs (fun v =>
    bind (emit (StreamWrite Py.TAB)) (fun _ =>
    bind (write_vertex_position (position v)) (fun _ =>
    bind (emit (StreamWrite Py.TAB)) (fun _ =>
    bind (write_vertex_normal (normal v)) (fun _ =>
    bind (emit (StreamWrite Py.TAB)) (fun _ =>
    bind (write_vertex_uv (uv v)) (fun _ =>
    emit (StreamWrite Py.LF)))))))) s
  = ((s ++ flat_map (@vertex_events scalar) vs)%list, Return tt).
Proof.
  apply for_each_app. intros [[[x y] z] [[nx ny] nz] [tu tv]] s0.
  unfold vertex_events, write_vertex_position, write_vertex_normal, write_vertex_uv.
  cbn [position normal uv].
  rewrite !bind_emit. unfold emit. now rewrite <- !app_assoc.
Qed.

(** A call whose name unpacks runs to completion and appends the whole
    trace of the sub-mesh. *)
Lemma write_trim_data_to_obj_return (chunk : TrimDataChunk scalar) name v_offset validate axis_fix
    (s : list (ObjEvent scalar)) (prefix label : string) :
  unpack2 (name_source name (material_name chunk)) = Return (prefix, label) ->
  write_trim_data_to_obj chunk name v_offset validate axis_fix s
  = ((s ++ trim_events chunk label v_offset)%list,
     Return (v_offset + vertex_count chunk)%Z).
Proof.
  intros Hname. unfold write_trim_data_to_obj.
  rewrite bind_emit, Hname, bind_lift_return. cbn beta iota.
  rewrite !bind_emit.
  rewrite (bind_return _ _ _ (vertex_loop_run _ _)).
  rewrite !bind_emit.
  rewrite (bind_return _ _ _
             (face_loop_run v_offset 0 [] (indexes chunk) _ eq_refl eq_refl)).
  unfold ret, trim_events, header_events, material_events, vertex_count.
  now rewrite <- !app_assoc.
Qed.

(** A call whose name does not unpack stops right after the first raw
    write. *)
Lemma write_trim_data_to_obj_raise (chunk : TrimDataChunk scalar) name v_offset validate axis_fix
    (s : list (ObjEvent scalar)) e :
  unpack2 (name_source name (material_name chunk)) = Raise e ->
  write_trim_data_to_obj chunk name v_offset validate axis_fix s
  = ((s ++ [StreamWrite (Py.LF ++ "# Object" ++ Py.LF)])%list, Raise e).
Proof.
  intros Hname. unfold write_trim_data_to_obj.
  now rewrite bind_emit, Hname, bind_lift_raise.
Qed.

(** With no explicit name, the label is the text after the last dot. *)
Lemma name_source_derived (material : string) :
  Py.contains "."%char material = true ->
  exists prefix label,
    material = prefix ++ String "."%char label
    /\ Py.contains "."%char label = false
    /\ unpack2 (name_source None material) = Return (prefix, label).
Proof.
  intros H. destruct (PyFacts.contains_cut_last _ _ H) as (p & q & E).
  exists p, q. destruct (PyFacts.cut_last_some _ _ E) as [Hs Hq].
  repeat split; try assumption.
  unfold name_source, Py.rsplit1. now rewrite E.
Qed.

Lemma name_source_underivable (material : string) :
  Py.contains "."%char material = false ->
  unpack2 (name_source None material) = Raise (ValueError (NotEnoughValues 2 1)).
Proof.
  intros H. apply PyFacts.cut_last_none in H.
  unfold name_source, Py.rsplit1. now rewrite H.
Qed.

(** The loop of [write_model_to_obj] on sub-meshes whose names all have a
    separator: it completes, and the accumulator follows [offset_after]. *)
Lemma write_model_loop_return (l : list (TrimDataChunk scalar)) :
  Forall (@has_separator scalar) l ->
  forall v_offset (s : list (ObjEvent scalar)),
    snd (write_model_loop l v_offset s) = Return (offset_after l v_offset).
Proof.
  induction 1 as [|chunk rest Hsep _ IH]; intros v_offset s; [reflexivity|].
  destruct (name_source_derived _ Hsep) as (p & q & _ & _ & Hname).
  cbn [write_model_loop offset_after].
  rewrite (bind_return _ _ _
             (write_trim_data_to_obj_return chunk None v_offset true true s Hname)).
  apply IH.
Qed.

End GeometryFacts.

Lemma cut_last_unique c p q :
  Py.contains c q = false -> Py.cut_last c (p ++ String c q) = Some (p, q).
Proof.
  intros Hq. induction p as [|a p IH]; simpl.
  - apply PyFacts.cut_last_none in Hq. rewrite Hq. now rewrite Ascii.eqb_refl.
  - now rewrite IH.
Qed.

Lemma write_model_to_obj_return scalar (chunk : ModelChunky scalar) s :
  Forall (@has_separator scalar) (meshs chunk) ->
  snd (write_model_to_obj chunk s) = Return (offset_after (meshs chunk) 0).
Proof. intros H. now apply write_model_loop_return. Qed.

(** A model with a single sub-mesh does return that sub-mesh's vertex count. *)
Lemma write_model_to_obj_single scalar (mesh : TrimDataChunk scalar) materials s :
  has_separator mesh ->
  snd (write_model_to_obj {| meshs := [mesh]; mtrls := materials |} s)
  = Return (vertex_count mesh).
Proof.
  intros H. rewrite write_model_to_obj_return by (constructor; [exact H|constructor]).
  cbn [meshs offset_after]. f_equal; lia.
Qed.

(** The accumulator overshoots the vertex total by the sum of the offsets
    that were passed down. *)
Lemma offset_after_lower_bound scalar (l : list (TrimDataChunk scalar)) :
  forall v_offset, (0 <= v_offset)%Z ->
    (v_offset + total_vertex_count l <= offset_after l v_offset)%Z.
Proof.
  induction l as [|chunk rest IH]; intros v_offset Hpos; cbn [offset_after total_vertex_count fold_right].
  - lia.
  - fold (total_vertex_count rest).
    assert (0 <= vertex_count chunk)%Z by (unfold vertex_count; lia).
    specialize (IH (v_offset + (v_offset + vertex_count chunk))%Z ltac:(lia)). lia.
Qed.

(** C1 (the code departs from the claim): on a model of two sub-meshes with
    one vertex each, [write_model_to_obj] returns 3, although the vertex
    counts sum to 2. The loop adds the callee's result, which already
    includes the offset passed in, to the accumulator. *)
Theorem write_model_to_obj_counts_twice :
  snd (write_model_to_obj Samples.two_meshes []) = Return 3%Z
  /\ total_vertex_count (meshs Samples.two_meshes) = 2%Z.
Proof. split; reflexivity. Qed.

(** C2 (the code departs from the claim): on a model of three sub-meshes
    with one vertex and one triangle each, the offsets handed to the face
    writer are 0, 1 and 3, while the vertices before the three sub-meshes
    number 0, 1 and 2. The third sub-mesh is written under an offset that
    is not the sum of the vertex counts before it, so its face indices
    leave the block that belongs to it. *)
Theorem write_model_to_obj_third_offset :
  face_offsets (fst (write_model_to_obj Samples.three_meshes [])) = [0; 1; 3]%Z
  /\ vertices_before (meshs Samples.three_meshes) 0 = [0; 1; 2]%Z
  /\ map (fun chunk => length (triangles (indexes chunk))) (meshs Samples.three_meshes)
     = [1; 1; 1].
Proof. repeat split; reflexivity. Qed.

(** C7: with no explicit name, a material name that contains a dot
    splits as [prefix.label] with no dot in [label] (the split at the last
    dot); and for every such split the call completes, the object-name
    directive carries [label], and the use-material directive carries the
    whole material name. *)
Theorem write_trim_data_to_obj_derives_label scalar (chunk : TrimDataChunk scalar)
    (v_offset : Z) (validate axis_fix : bool) (s : list (ObjEvent scalar)) :
  (Py.contains "."%char (material_name chunk) = true ->
   exists prefix label,
     material_name chunk = prefix ++ String "."%char label
     /\ Py.contains "."%char label = false)
  /\ (forall prefix label : string,
         material_name chunk = prefix ++ String "."%char label ->
         Py.contains "."%char label = false ->
         write_trim_data_to_obj chunk None v_offset validate axis_fix s
         = ((s ++ [StreamWrite (Py.LF ++ "# Object" ++ Py.LF);
                   ObjectName label;
                   StreamWrite (Py.TAB ++ "# Vertexes" ++ Py.LF)]
               ++ flat_map (@vertex_events scalar) (vertexes chunk)
               ++ [StreamWrite ("# Material" ++ Py.LF);
                   UseMaterial (material_name chunk);
                   StreamWrite (Py.TAB ++ "# Indexes" ++ Py.LF)]
               ++ flat_map (face_events scalar v_offset) (triangles (indexes chunk)))%list,
            Return (v_offset + Z.of_nat (length (vertexes chunk)))%Z)).
Proof.
  split.
  - intros Hdot. destruct (name_source_derived _ Hdot) as (p & q & Hs & Hq & _).
    now exists p, q.
  - intros prefix label Hname Hlabel.
    apply write_trim_data_to_obj_return with (prefix := prefix).
    unfold name_source, Py.rsplit1. rewrite Hname.
    now rewrite (@cut_last_unique _ prefix _ Hlabel).
Qed.

Lemma write_trim_data_to_obj_derives_label_witness :
  write_trim_data_to_obj Samples.helmet_mesh None 0 true true []
  = (([StreamWrite (Py.LF ++ "# Object" ++ Py.LF);
       ObjectName "helmet";
       StreamWrite (Py.TAB ++ "# Vertexes" ++ Py.LF)]
        ++ flat_map (@vertex_events Z) (vertexes Samples.helmet_mesh)
        ++ [StreamWrite ("# Material" ++ Py.LF);
            UseMaterial "teamcolor.helmet";
            StreamWrite (Py.TAB ++ "# Indexes" ++ Py.LF)]
        ++ [StreamWrite Py.TAB; IndexFace 0 1 2 0 true])%list,
     Return 3%Z).
Proof.
  apply (proj2 (@write_trim_data_to_obj_derives_label Z Samples.helmet_mesh 0 true
                  true []) "teamcolor" "helmet"); reflexivity.
Defined.

(** ** Characters of a [str] *)

Module CharFacts.

Lemma single_char_len (c : string) : single_char c -> Py.len c = 1.
Proof. intros (x & rest & -> & H). cbn [Py.len]. now rewrite H. Qed.

Lemma join_cons (a : ascii) (c : string) (cs : list string) :
  fold_right append "" (String a c :: cs) = String a (fold_right append "" (c :: cs)).
Proof. reflexivity. Qed.

(** The characters of [s] are single characters and spell [s]. *)
Lemma chars_spec (s : string) :
  Forall single_char (Py.chars s) /\ fold_right append "" (Py.chars s) = s.
Proof.
  induction s as [|a r [IHc IHj]]; [split; [constructor | reflexivity]|].
  cbn [Py.chars]. destruct (Py.chars r) as [|c cs].
  - cbn in IHj. subst r. split; [|reflexivity].
    constructor; [|constructor]. now exists a, "".
  - pose proof (Forall_inv IHc) as (x & rest & Hc & Hrest).
    assert (Hcont : Py.continues r = Py.is_continuation x).
    { rewrite <- IHj, Hc. reflexivity. }
    rewrite Hcont. destruct (Py.is_continuation x) eqn:Hx.
    + split.
      * constructor; [|exact (Forall_inv_tail IHc)].
        exists a, c. split; [reflexivity|].
        rewrite Hc. cbn [Py.char_starts]. now rewrite Hx, Hrest.
      * now rewrite join_cons, IHj.
    + split.
      * constructor; [now exists a, "" | exact IHc].
      * change (String a (fold_right append "" (c :: cs)) = String a r).
        now rewrite IHj.
Qed.

(** [len] counts the characters [chars] gives. *)
Lemma chars_length (s : string) : length (Py.chars s) = Py.len s.
Proof.
  induction s as [|a r IH]; [reflexivity|].
  cbn [Py.chars Py.len]. destruct (Py.chars r) as [|c cs].
  - destruct r as [|b r']; [reflexivity | discriminate IH].
  - destruct r as [|b r']; [discriminate IH|].
    cbn [Py.continues Py.char_starts]. cbn [Py.len length] in IH.
    destruct (Py.is_continuation b); cbn [length]; lia.
Qed.

Lemma length_append (a b : string) :
  String.length (a ++ b) = String.length a + String.length b.
Proof. induction a as [|x a IH]; [reflexivity|]. cbn. now rewrite IH. Qed.

(** What [a, b = xs] does, by the number of values. *)
Lemma unpack2_by_length (xs : list string) :
  length xs <> 2 ->
  unpack2 xs = Raise (ValueError (if (length xs <? 2)%nat
                                  then NotEnoughValues 2 (length xs)
                                  else TooManyValues 2)).
Proof. destruct xs as [|a [|b [|c l]]]; try reflexivity. now intros H; elim H. Qed.

(** A name of two characters unpacks into them. *)
Lemma chars_two (name : string) :
  Py.len name = 2 ->
  exists first second,
    Py.chars name = [first; second]
    /\ name = first ++ second
    /\ Py.len first = 1 /\ Py.len second = 1
    /\ second <> name.
Proof.
  intros Hlen. rewrite <- chars_length in Hlen.
  destruct (chars_spec name) as [Hc Hj].
  destruct (Py.chars name) as [|first [|second [|third l]]]; try discriminate Hlen.
  pose proof (Forall_inv Hc) as H1.
  pose proof (Forall_inv (Forall_inv_tail Hc)) as H2.
  cbn [fold_right] in Hj.
  assert (Hname : name = first ++ second).
  { rewrite <- Hj. f_equal. clear. induction second as [|x r IH]; cbn; congruence. }
  exists first, second. split; [reflexivity|]. split; [exact Hname|].
  split; [now apply single_char_len|]. split; [now apply single_char_len|].
  intros Heq. apply (f_equal String.length) in Hname.
  rewrite length_append, <- Heq in Hname.
  destruct H1 as (x & rest & -> & _). cbn [String.length] in Hname. lia.
Qed.

End CharFacts.

(** C6 (as stated, refuted): an explicit name may be the empty string,
    whose length is not 2; Python's [or] then falls through to the material
    name, and the call completes instead of raising. *)
Lemma empty_explicit_name_does_not_raise :
  ~ (forall (chunk : TrimDataChunk Z) (name : string) (v_offset : Z)
            (s : list (ObjEvent Z)),
        Py.len name <> 2 ->
        exists s' kind,
          write_trim_data_to_obj chunk (Some name) v_offset true true s
          = (s', Raise (ValueError kind))).
Proof.
  intros H.
  destruct (H Samples.helmet_mesh "" 0%Z [] ltac:(discriminate)) as (s' & kind & E).
  vm_compute in E. discriminate E.
Qed.

(** C6 (amended): the name-derivation step unpacks a non-empty explicit
    name itself, character by character. Such a name whose length in
    characters is not 2 makes the call raise ValueError right after the
    first raw write; a name of exactly two characters makes the second
    character the object label, which is never the name itself. With no
    explicit name, or with an empty one, the call raises ValueError
    whenever the material name has no dot. *)
Theorem write_trim_data_to_obj_name_unpacking scalar (chunk : TrimDataChunk scalar)
    (v_offset : Z) (validate axis_fix : bool) (s : list (ObjEvent scalar)) :
  (forall name : string,
      name <> "" -> Py.len name <> 2 ->
      write_trim_data_to_obj chunk (Some name) v_offset validate axis_fix s
      = ((s ++ [StreamWrite (Py.LF ++ "# Object" ++ Py.LF)])%list,
         Raise (ValueError (if (Py.len name <? 2)%nat
                            then NotEnoughValues 2 (Py.len name)
                            else TooManyValues 2))))
  /\ (forall name : string,
         Py.len name = 2 ->
         exists first second : string,
           name = first ++ second
           /\ Py.len first = 1 /\ Py.len second = 1
           /\ write_trim_data_to_obj chunk (Some name) v_offset validate axis_fix s
              = ((s ++ trim_events chunk second v_offset)%list,
                 Return (v_offset + Z.of_nat (length (vertexes chunk)))%Z)
           /\ second <> name)
  /\ (forall name : option string,
         name = None \/ name = Some "" ->
         Py.contains "."%char (material_name chunk) = false ->
         write_trim_data_to_obj chunk name v_offset validate axis_fix s
         = ((s ++ [StreamWrite (Py.LF ++ "# Object" ++ Py.LF)])%list,
            Raise (ValueError (NotEnoughValues 2 1)))).
Proof.
  split; [|split].
  - intros name Hne Hlen. apply write_trim_data_to_obj_raise.
    unfold name_source. destruct name as [|a r]; [congruence|].
    cbn [Py.truthy]. rewrite <- (CharFacts.chars_length (String a r)) in *.
    now apply CharFacts.unpack2_by_length.
  - intros name Hlen.
    destruct (CharFacts.chars_two name Hlen)
      as (first & second & Hchars & Hname & H1 & H2 & Hne).
    exists first, second.
    split; [exact Hname|]. split; [exact H1|]. split; [exact H2|].
    split; [|exact Hne].
    apply write_trim_data_to_obj_return with (prefix := first).
    unfold name_source. destruct name as [|a r]; [discriminate Hlen|].
    cbn [Py.truthy]. now rewrite Hchars.
  - intros name Hname Hdot. apply write_trim_data_to_obj_raise.
    replace (name_source name (material_name chunk))
      with (name_source None (material_name chunk))
      by (destruct Hname as [-> | ->]; reflexivity).
    now apply name_source_underivable.
Qed.

Lemma write_trim_data_to_obj_name_unpacking_witness :
  write_trim_data_to_obj Samples.helmet_mesh (Some "rifle") 0 true true []
  = ([StreamWrite (Py.LF ++ "# Object" ++ Py.LF)],
     Raise (ValueError (TooManyValues 2)))
  /\ write_trim_data_to_obj Samples.helmet_mesh (Some Samples.e_acute) 0 true true []
     = ([StreamWrite (Py.LF ++ "# Object" ++ Py.LF)],
        Raise (ValueError (NotEnoughValues 2 1)))
  /\ (exists first second : string,
         Samples.e_acute ++ "a" = first ++ second
         /\ Py.len first = 1 /\ Py.len second = 1
         /\ write_trim_data_to_obj Samples.helmet_mesh
              (Some (Samples.e_acute ++ "a")) 0 true true []
            = (([] ++ trim_events Samples.helmet_mesh second 0)%list,
               Return (0 + Z.of_nat (length (vertexes Samples.helmet_mesh)))%Z)
         /\ second <> Samples.e_acute ++ "a")
  /\ write_trim_data_to_obj Samples.plain_mesh (Some "") 0 true true []
     = ([StreamWrite (Py.LF ++ "# Object" ++ Py.LF)],
        Raise (ValueError (NotEnoughValues 2 1))).
Proof.
  split; [|split; [|split]].
  - apply (proj1 (write_trim_data_to_obj_name_unpacking
                    Samples.helmet_mesh 0 true true []) "rifle").
    + discriminate.
    + discriminate.
  - apply (proj1 (write_trim_data_to_obj_name_unpacking
                    Samples.helmet_mesh 0 true true []) Samples.e_acute).
    + discriminate.
    + discriminate.
  - apply (proj1 (proj2 (write_trim_data_to_obj_name_unpacking
                           Samples.helmet_mesh 0 true true []))
             (Samples.e_acute ++ "a")).
    reflexivity.
  - apply (proj2 (proj2 (write_trim_data_to_obj_name_unpacking
                           Samples.plain_mesh 0 true true [])) (Some "")).
    + right; reflexivity.
    + reflexivity.
Defined.

(** ** Slots and shaders *)

Lemma str_in_supported (x : string) :
  str_in x [Dow2_Unit; Dow2_Unit_2Uv] = true
  <-> x = "dow2_unit" \/ x = "dow2_unit_2uv".
Proof.
  unfold str_in, SupportedShaders_eq_str. cbn [existsb SupportedShaders_value].
  rewrite orb_false_r, orb_true_iff, !String.eqb_eq.
  split; intros [H|H]; auto.
Qed.

Lemma TextureType_call_value (t : TextureType) :
  TextureType_call (TextureType_value t) = Return t.
Proof. destruct t; reflexivity. Qed.

Lemma TextureType_call_return (value : string) (t : TextureType) :
  TextureType_call value = Return t -> TextureType_value t = value.
Proof.
  unfold TextureType_call.
  destruct (find _ TextureType_members) as [m|] eqn:E; [|discriminate].
  intros H. injection H as <-.
  apply find_some in E. now apply String.eqb_eq.
Qed.

Lemma TextureType_call_unknown (value : string) :
  ~ known_slot value ->
  TextureType_call value = Raise (ValueError (NotAValidMember value "TextureType")).
Proof.
  intros Hunknown. unfold TextureType_call.
  destruct (find _ TextureType_members) as [m|] eqn:E; [|reflexivity].
  apply find_some in E. destruct E as [_ E]. apply String.eqb_eq in E.
  elim Hunknown. now exists m.
Qed.

Lemma MaterialVarType_ne_Texture (k : MaterialVarType) :
  MaterialVarType_ne k Texture = false <-> k = Texture.
Proof. destruct k; simpl; split; congruence. Qed.

(** C4: shader resolution raises NotImplementedError carrying the shader
    string exactly when the string is neither "dow2_unit" nor
    "dow2_unit_2uv"; when it is one of the two, the result is the
    generator of [fetch_textures_from_dow2_unit] over the material's
    variables. *)
Theorem fetch_textures_from_mtrl_resolution (chunk : MtrlChunk) :
  (fetch_textures_from_mtrl chunk = Raise (NotImplementedError [shader_name chunk])
   <-> (shader_name chunk <> "dow2_unit" /\ shader_name chunk <> "dow2_unit_2uv"))
  /\ ((exists e, fetch_textures_from_mtrl chunk = Raise e)
      <-> (shader_name chunk <> "dow2_unit" /\ shader_name chunk <> "dow2_unit_2uv"))
  /\ (shader_name chunk = "dow2_unit" \/ shader_name chunk = "dow2_unit_2uv" ->
      fetch_textures_from_mtrl chunk
      = Return (fetch_textures_from_dow2_unit (vars chunk))).
Proof.
  unfold fetch_textures_from_mtrl.
  pose proof (str_in_supported (shader_name chunk)) as Hin.
  destruct (str_in (shader_name chunk) [Dow2_Unit; Dow2_Unit_2Uv]).
  - assert (H : shader_name chunk = "dow2_unit" \/ shader_name chunk = "dow2_unit_2uv")
      by now apply Hin.
    split; [|split].
    + split; [discriminate | tauto].
    + split; [intros [e He]; discriminate He | tauto].
    + reflexivity.
  - assert (H : ~ (shader_name chunk = "dow2_unit" \/ shader_name chunk = "dow2_unit_2uv")).
    { intros H. apply Hin in H. discriminate H. }
    split; [|split].
    + split; [tauto | reflexivity].
    + split; [tauto | eauto].
    + tauto.
Qed.

Lemma fetch_textures_from_mtrl_resolution_witness :
  fetch_textures_from_mtrl MaterialSamples.rifle
  = Return (Yield (Diffuse, "tex/rifle_d") Stop)
  /\ fetch_textures_from_mtrl MaterialSamples.terrain
     = Raise (NotImplementedError ["dow2_terrain"]).
Proof.
  split.
  - apply (proj2 (proj2 (fetch_textures_from_mtrl_resolution MaterialSamples.rifle))).
    left; reflexivity.
  - apply (proj1 (fetch_textures_from_mtrl_resolution MaterialSamples.terrain)).
    split; discriminate.
Defined.

(** ** The slot extraction *)

Lemma fetch_skip (chunk : VarChunk) (rest : list VarChunk) :
  var_type chunk <> Texture ->
  fetch_textures_from_dow2_unit (chunk :: rest) = fetch_textures_from_dow2_unit rest.
Proof.
  intros H. cbn [fetch_textures_from_dow2_unit].
  destruct (MaterialVarType_ne (var_type chunk) Texture) eqn:E; [reflexivity|].
  now apply MaterialVarType_ne_Texture in E.
Qed.

Lemma fetch_yield (chunk : VarChunk) (rest : list VarChunk) (t : TextureType) :
  var_type chunk = Texture ->
  property_name chunk = TextureType_value t ->
  fetch_textures_from_dow2_unit (chunk :: rest)
  = Yield (t, args chunk) (fetch_textures_from_dow2_unit rest).
Proof.
  intros Hk Hp. cbn [fetch_textures_from_dow2_unit].
  now rewrite Hk, Hp, TextureType_call_value.
Qed.

Lemma fetch_throw (chunk : VarChunk) (rest : list VarChunk) :
  var_type chunk = Texture ->
  ~ known_slot (property_name chunk) ->
  fetch_textures_from_dow2_unit (chunk :: rest)
  = Throw (ValueError (NotAValidMember (property_name chunk) "TextureType")).
Proof.
  intros Hk Hp. cbn [fetch_textures_from_dow2_unit].
  now rewrite Hk, (TextureType_call_unknown Hp).
Qed.

Lemma var_type_dec (chunk : VarChunk) :
  {var_type chunk = Texture} + {var_type chunk <> Texture}.
Proof. destruct (var_type chunk); [left; reflexivity | right; discriminate]. Qed.

Lemma is_texture_true (chunk : VarChunk) :
  is_texture chunk = true <-> var_type chunk = Texture.
Proof.
  unfold is_texture. rewrite negb_true_iff. apply MaterialVarType_ne_Texture.
Qed.

(** Over variables that are all extractable the generator runs to
    exhaustion and yields the texture variables in input order. *)
Lemma fetch_extractable (before : list VarChunk) :
  Forall extractable before ->
  Forall2 extracted_as (filter is_texture before)
          (yields (fetch_textures_from_dow2_unit before))
  /\ ending (fetch_textures_from_dow2_unit before) = None.
Proof.
  induction 1 as [|chunk rest Hc _ [IHy IHe]]; [split; constructor|].
  cbn [filter].
  destruct (var_type_dec chunk) as [Hk|Hk].
  - destruct (Hc Hk) as [t Ht].
    rewrite (@fetch_yield chunk rest t Hk (eq_sym Ht)).
    rewrite (proj2 (is_texture_true chunk) Hk).
    cbn [yields ending]. split; [|exact IHe].
    constructor; [|exact IHy]. now split.
  - rewrite (@fetch_skip chunk rest Hk).
    destruct (is_texture chunk) eqn:E; [|now split].
    apply is_texture_true in E. contradiction.
Qed.

(** A stray texture variable after extractable ones: everything before it
    is yielded, then the generator raises. *)
Lemma fetch_extractable_then (before rest : list VarChunk) :
  Forall extractable before ->
  yields (fetch_textures_from_dow2_unit (before ++ rest))
  = (yields (fetch_textures_from_dow2_unit before)
       ++ yields (fetch_textures_from_dow2_unit rest))%list
  /\ ending (fetch_textures_from_dow2_unit (before ++ rest))
     = ending (fetch_textures_from_dow2_unit rest).
Proof.
  induction 1 as [|chunk l Hc _ [IHy IHe]]; [now split|].
  rewrite <- app_comm_cons.
  destruct (var_type_dec chunk) as [Hk|Hk].
  - destruct (Hc Hk) as [t Ht].
    rewrite !(fun r => @fetch_yield chunk r t Hk (eq_sym Ht)).
    cbn [yields ending]. now rewrite IHy.
  - rewrite !(fun r => @fetch_skip chunk r Hk). now split.
Qed.

(** C5: the extraction skips a variable that is not a texture; turns a
    texture variable whose property name is the wire string of a slot into
    the pair of that slot and the variable's argument; and raises
    ValueError carrying the property name on a texture variable whose
    property name is no slot's wire string. Over extractable variables the
    pairs come out in input order, and a stray variable after them adds
    nothing to the output before the raise. *)
Theorem fetch_textures_from_dow2_unit_extraction
    (before : list VarChunk) (chunk : VarChunk) (rest : list VarChunk) :
  (var_type chunk <> Texture ->
   fetch_textures_from_dow2_unit (chunk :: rest) = fetch_textures_from_dow2_unit rest)
  /\ (forall t : TextureType,
         var_type chunk = Texture ->
         property_name chunk = TextureType_value t ->
         fetch_textures_from_dow2_unit (chunk :: rest)
         = Yield (t, args chunk) (fetch_textures_from_dow2_unit rest))
  /\ (var_type chunk = Texture ->
      ~ known_slot (property_name chunk) ->
      fetch_textures_from_dow2_unit (chunk :: rest)
      = Throw (ValueError (NotAValidMember (property_name chunk) "TextureType")))
  /\ (Forall extractable before ->
      Forall2 extracted_as (filter is_texture before)
              (yields (fetch_textures_from_dow2_unit before))
      /\ ending (fetch_textures_from_dow2_unit before) = None
      /\ (var_type chunk = Texture ->
          ~ known_slot (property_name chunk) ->
          yields (fetch_textures_from_dow2_unit (before ++ chunk :: rest))
          = yields (fetch_textures_from_dow2_unit before)
          /\ ending (fetch_textures_from_dow2_unit (before ++ chunk :: rest))
             = Some (ValueError (NotAValidMember (property_name chunk) "TextureType")))).
Proof.
  split; [apply fetch_skip|].
  split; [intros t; apply fetch_yield|].
  split; [apply fetch_throw|].
  intros Hbefore.
  destruct (fetch_extractable Hbefore) as [Hy He].
  split; [exact Hy|]. split; [exact He|].
  intros Hk Hp.
  destruct (fetch_extractable_then (chunk :: rest) Hbefore) as [Hy' He'].
  rewrite Hy', He', (@fetch_throw chunk rest Hk Hp). cbn [yields ending].
  now rewrite app_nil_r.
Qed.

Lemma lightMap_unknown : ~ known_slot "lightMap".
Proof. intros [t Ht]. destruct t; discriminate Ht. Qed.

Lemma mixed_vars_extractable : Forall extractable MaterialSamples.mixed_vars.
Proof.
  repeat constructor; intros H; try discriminate H.
  - now exists Normal.
  - now exists Diffuse.
Qed.

Lemma fetch_textures_from_dow2_unit_extraction_witness :
  yields (fetch_textures_from_dow2_unit
            (MaterialSamples.mixed_vars ++ [MaterialSamples.stray_var]))
  = [(Normal, "tex/n"); (Diffuse, "tex/d")]
  /\ ending (fetch_textures_from_dow2_unit
               (MaterialSamples.mixed_vars ++ [MaterialSamples.stray_var]))
     = Some (ValueError (NotAValidMember "lightMap" "TextureType")).
Proof.
  exact (proj2 (proj2 (proj2 (proj2 (proj2
           (fetch_textures_from_dow2_unit_extraction
              MaterialSamples.mixed_vars MaterialSamples.stray_var [])))
           mixed_vars_extractable)) eq_refl lightMap_unknown).
Defined.

(** ** The material writer *)

Lemma write_texture_run (tex_type : TextureType) (full_texture : string)
    (s : list MtlEvent) :
  write_texture tex_type full_texture s
  = ((s ++ slot_events tex_type full_texture)%list, Return tt).
Proof.
  destruct tex_type; try reflexivity.
  unfold write_texture. cbn [TextureType_eq]. rewrite bind_emit.
  unfold emit, slot_events. now rewrite <- app_assoc.
Qed.

Lemma write_textures_run (texture_root : option string) (texture_ext : string)
    (force_valid : bool) (g : Gen (TextureType * string)) :
  forall s : list MtlEvent,
    write_textures texture_root texture_ext force_valid g s
    = ((s ++ flat_map (texture_events texture_root texture_ext force_valid) (yields g))%list,
       outcome_of_ending (ending g)).
Proof.
  induction g as [|[tex_type texture] rest IH|e]; intros s; cbn [write_textures yields ending flat_map].
  - unfold ret. now rewrite app_nil_r.
  - rewrite (bind_return _ _ _ (write_texture_run _ _ _)), IH.
    unfold texture_events at 2. cbn [fst snd]. now rewrite app_assoc.
  - unfold raise. now rewrite app_nil_r.
Qed.

Section MaterialWriterFacts.

Variable mtl_text : MtlEvent -> string.

Lemma write_mtrl_to_mtl_unsupported (chunk : MtrlChunk)
    (texture_root texture_ext : option string) (force_valid : bool) (s : list MtlEvent) :
  str_in (shader_name chunk) [Dow2_Unit; Dow2_Unit_2Uv] = false ->
  write_mtrl_to_mtl mtl_text chunk texture_root texture_ext force_valid s
  = ((s ++ [DefaultTexture (name chunk)])%list,
     Raise (NotImplementedError [shader_name chunk])).
Proof.
  intros H. unfold write_mtrl_to_mtl, fetch_textures_from_mtrl. rewrite H.
  reflexivity.
Qed.

Lemma write_mtrl_to_mtl_supported (chunk : MtrlChunk)
    (texture_root texture_ext : option string) (force_valid : bool) (s : list MtlEvent) :
  str_in (shader_name chunk) [Dow2_Unit; Dow2_Unit_2Uv] = true ->
  let g := fetch_textures_from_dow2_unit (vars chunk) in
  let s' := (s ++ DefaultTexture (name chunk)
               :: flat_map (texture_events texture_root (Py.or_else texture_ext "")
                              force_valid) (yields g))%list in
  write_mtrl_to_mtl mtl_text chunk texture_root texture_ext force_valid s
  = (s', match ending g with
         | None => Return (text_length mtl_text s' - text_length mtl_text s)%Z
         | Some e => Raise e
         end).
Proof.
  intros H g s'. unfold write_mtrl_to_mtl, fetch_textures_from_mtrl. rewrite H.
  unfold bind, tell, emit, lift. rewrite write_textures_run. fold g.
  rewrite <- app_assoc. cbn [app]. fold s'.
  now destruct (ending g).
Qed.

End MaterialWriterFacts.

Lemma ending_fetch_is_value_error (chunks : list VarChunk) (e : Exception) :
  ending (fetch_textures_from_dow2_unit chunks) = Some e ->
  exists value, e = ValueError (NotAValidMember value "TextureType").
Proof.
  induction chunks as [|chunk rest IH]; cbn [fetch_textures_from_dow2_unit ending];
    [discriminate|].
  destruct (MaterialVarType_ne (var_type chunk) Texture); [exact IH|].
  unfold TextureType_call.
  destruct (find _ TextureType_members); cbn [ending]; [exact IH|].
  intros H. injection H as <-. eauto.
Qed.

(** C3 (as stated, refuted): a material with an unsupported shader does
    not leave the stream as it was; the default-texture directive is
    already written when the shader is looked at. *)
Lemma unsupported_shader_changes_stream :
  ~ (forall (mtl_text : MtlEvent -> string) (chunk : MtrlChunk)
            (texture_root texture_ext : option string) (force_valid : bool)
            (s : list MtlEvent),
        shader_name chunk <> "dow2_unit" ->
        shader_name chunk <> "dow2_unit_2uv" ->
        fst (write_mtrl_to_mtl mtl_text chunk texture_root texture_ext force_valid s) = s).
Proof.
  intros H.
  specialize (H MaterialSamples.one_char MaterialSamples.terrain None None true []
                ltac:(discriminate) ltac:(discriminate)).
  vm_compute in H. discriminate H.
Qed.

(** C3 (amended): for a material whose shader is neither "dow2_unit" nor
    "dow2_unit_2uv", [write_mtrl_to_mtl] appends the default-texture
    directive naming the material and nothing else, and raises
    NotImplementedError carrying the shader string: no directive of any
    texture slot is written. *)
Theorem write_mtrl_to_mtl_unsupported_shader (mtl_text : MtlEvent -> string)
    (chunk : MtrlChunk) (texture_root texture_ext : option string)
    (force_valid : bool) (s : list MtlEvent) :
  shader_name chunk <> "dow2_unit" ->
  shader_name chunk <> "dow2_unit_2uv" ->
  write_mtrl_to_mtl mtl_text chunk texture_root texture_ext force_valid s
  = ((s ++ [DefaultTexture (name chunk)])%list,
     Raise (NotImplementedError [shader_name chunk])).
Proof.
  intros H1 H2. apply write_mtrl_to_mtl_unsupported.
  destruct (str_in (shader_name chunk) [Dow2_Unit; Dow2_Unit_2Uv]) eqn:E; [|reflexivity].
  apply str_in_supported in E. tauto.
Qed.

Lemma write_mtrl_to_mtl_unsupported_shader_witness :
  write_mtrl_to_mtl MaterialSamples.one_char MaterialSamples.terrain
    (Some "textures") (Some ".dds") true []
  = ([DefaultTexture "terrain"], Raise (NotImplementedError ["dow2_terrain"])).
Proof.
  apply (@write_mtrl_to_mtl_unsupported_shader MaterialSamples.one_char
           MaterialSamples.terrain (Some "textures") (Some ".dds") true []);
    discriminate.
Defined.

(** C10: every slot has its branch in the dispatch, so writing a texture
    never raises; and [write_mtrl_to_mtl] never ends in the bare
    NotImplementedError of the final [else]. *)
Theorem write_mtrl_to_mtl_dispatch_total :
  (forall (tex_type : TextureType) (full_texture : string) (s : list MtlEvent),
      snd (write_texture tex_type full_texture s) = Return tt)
  /\ (forall (mtl_text : MtlEvent -> string) (chunk : MtrlChunk)
             (texture_root texture_ext : option string) (force_valid : bool)
             (s : list MtlEvent),
         snd (write_mtrl_to_mtl mtl_text chunk texture_root texture_ext force_valid s)
         <> Raise (NotImplementedError [])).
Proof.
  split.
  - intros tex_type full_texture s. now rewrite write_texture_run.
  - intros mtl_text chunk texture_root texture_ext force_valid s Hraise.
    destruct (str_in (shader_name chunk) [Dow2_Unit; Dow2_Unit_2Uv]) eqn:E.
    + rewrite (write_mtrl_to_mtl_supported mtl_text chunk texture_root texture_ext
                 force_valid s E) in Hraise.
      cbn [snd] in Hraise.
      destruct (ending (fetch_textures_from_dow2_unit (vars chunk))) as [e|] eqn:Hend;
        [|discriminate Hraise].
      destruct (ending_fetch_is_value_error _ Hend) as [value ->].
      discriminate Hraise.
    + rewrite (write_mtrl_to_mtl_unsupported mtl_text chunk texture_root texture_ext
                 force_valid s E) in Hraise.
      discriminate Hraise.
Qed.

(** C8 (as stated, refuted): with [force_valid] left at its default, the
    path in the two directives of a diffuse texture is not always the root
    joined with the texture plus the extension; a space in the last
    segment comes out as an underscore. *)
Lemma diffuse_path_is_not_the_joined_path :
  ~ (forall (mtl_text : MtlEvent -> string) (chunk : MtrlChunk)
            (texture_root texture_ext : option string) (force_valid : bool)
            (texture : string),
        fetch_textures_from_mtrl chunk = Return (Yield (Diffuse, texture) Stop) ->
        let path := joined_path texture_root (Py.or_else texture_ext "") texture in
        fst (write_mtrl_to_mtl mtl_text chunk texture_root texture_ext force_valid [])
        = [DefaultTexture (name chunk); TextureDiffuse path; TextureAlpha path]).
Proof.
  intros H.
  specialize (H MaterialSamples.one_char MaterialSamples.spaced None None true
                "tex dir/rifle d" eq_refl).
  vm_compute in H. discriminate H.
Qed.

(** C8 (amended): each diffuse pair the loop of [write_mtrl_to_mtl] meets
    adds exactly two directives, a diffuse map and an alpha map, both
    with the same path. That path is the root (when given and not empty)
    joined with the texture, with the extension appended; when
    [force_valid] is on, its last segment is then rewritten with
    underscores for spaces. On the rifle material with root "textures"
    and extension ".dds" both directives name "textures/tex/rifle_d.dds". *)
Theorem diffuse_writes_color_and_alpha :
  (forall (texture_root : option string) (texture_ext : string) (force_valid : bool)
          (texture : string) (rest : Gen (TextureType * string)) (s : list MtlEvent),
      let path := full_texture_path texture_root texture_ext force_valid texture in
      write_textures texture_root texture_ext force_valid
        (Yield (Diffuse, texture) rest) s
      = write_textures texture_root texture_ext force_valid rest
          (s ++ [TextureDiffuse path; TextureAlpha path])%list)
  /\ (forall (texture_root : option string) (texture_ext texture : string),
         full_texture_path texture_root texture_ext false texture
         = match texture_root with
           | Some root => if Py.truthy root then PosixPath.join root texture else texture
           | None => texture
           end ++ texture_ext
         /\ full_texture_path texture_root texture_ext true texture
            = PosixPath.join
                (fst (PosixPath.split (joined_path texture_root texture_ext texture)))
                (Py.replace " "%char "_"%char
                   (snd (PosixPath.split (joined_path texture_root texture_ext texture)))))
  /\ (forall mtl_text : MtlEvent -> string,
         fst (write_mtrl_to_mtl mtl_text MaterialSamples.rifle
                (Some "textures") (Some ".dds") true [])
         = [DefaultTexture "rifle";
            TextureDiffuse "textures/tex/rifle_d.dds";
            TextureAlpha "textures/tex/rifle_d.dds"]).
Proof.
  split; [|split].
  - intros texture_root texture_ext force_valid texture rest s path.
    cbn [write_textures]. fold path.
    now rewrite (bind_return _ _ _ (write_texture_run Diffuse path s)).
  - intros texture_root texture_ext texture. split; [reflexivity|].
    unfold joined_path, full_texture_path.
    now destruct (PosixPath.split _).
  - intros mtl_text.
    now rewrite (write_mtrl_to_mtl_supported mtl_text MaterialSamples.rifle
                   (Some "textures") (Some ".dds") true [] eq_refl).
Qed.

(** ** Paths *)

Module PathFacts.

Lemma append_assoc (a b c : string) : (a ++ b) ++ c = a ++ (b ++ c).
Proof. induction a as [|x a IH]; simpl; [reflexivity | now rewrite IH]. Qed.

Lemma append_nil_r (a : string) : a ++ "" = a.
Proof. induction a as [|x a IH]; simpl; [reflexivity | now rewrite IH]. Qed.

Lemma endswith_decomp (c : ascii) (s : string) :
  Py.endswith c s = true -> exists d, s = d ++ String c "".
Proof.
  induction s as [|a r IH]; [discriminate|].
  destruct r as [|b r].
  - simpl. intros H. apply Ascii.eqb_eq in H. subst a. now exists "".
  - intros H. change (Py.endswith c (String b r) = true) in H.
    destruct (IH H) as [d Hd]. exists (String a d). simpl. now rewrite <- Hd.
Qed.

Lemma rstrip_empty (c : ascii) (s : string) :
  Py.rstrip c s = "" <-> Py.all_char c s = true.
Proof.
  induction s as [|a r IH]; simpl; [tauto|].
  destruct (Py.rstrip c r) as [|x r'] eqn:E.
  - assert (Hr : Py.all_char c r = true) by now apply IH.
    rewrite Hr, andb_true_r.
    destruct (Ascii.eqb a c); split; congruence.
  - assert (Hr : Py.all_char c r = false).
    { destruct (Py.all_char c r); [|reflexivity].
      destruct IH as [_ IH]. specialize (IH eq_refl). discriminate IH. }
    rewrite Hr, andb_false_r. split; discriminate.
Qed.

Lemma endswith_rstrip (c : ascii) (s : string) :
  Py.endswith c (Py.rstrip c s) = false.
Proof.
  induction s as [|a r IH]; simpl; [reflexivity|].
  destruct (Py.rstrip c r) as [|x r'] eqn:E.
  - destruct (Ascii.eqb a c) eqn:Eac; simpl; [reflexivity | exact Eac].
  - exact IH.
Qed.

Lemma rstrip_decomp (c : ascii) (s : string) :
  exists seps, Py.all_char c seps = true /\ s = Py.rstrip c s ++ seps.
Proof.
  induction s as [|a r (seps & Hall & Hr)]; simpl; [now exists ""|].
  destruct (Py.rstrip c r) as [|x r'] eqn:E.
  - destruct (Ascii.eqb a c) eqn:Eac.
    + exists (String a r). split; [|reflexivity].
      simpl. rewrite Eac. now apply rstrip_empty.
    + exists seps. split; [exact Hall|]. simpl. now rewrite Hr at 1.
  - exists seps. split; [exact Hall|]. simpl. now rewrite Hr at 1.
Qed.

Lemma all_char_endswith (c : ascii) (s : string) :
  Py.all_char c s = true -> Py.truthy s = true -> Py.endswith c s = true.
Proof.
  induction s as [|a r IH]; [discriminate|].
  simpl. intros H _. apply andb_true_iff in H. destruct H as [Ha Hr].
  destruct r as [|b r]; [exact Ha|]. now apply IH.
Qed.

Lemma startswith_replace (seg : string) :
  Py.contains "/"%char seg = false ->
  Py.startswith "/"%char (Py.replace " "%char "_"%char seg) = false.
Proof.
  destruct seg as [|x r]; [reflexivity|].
  unfold Py.contains. cbn [list_ascii_of_string existsb Py.replace Py.startswith].
  intros H. apply orb_false_iff in H.
  destruct H as [H _]. rewrite Ascii.eqb_sym in H.
  destruct (Ascii.eqb x " "); [reflexivity | exact H].
Qed.

(** [split] cuts a path right before its last segment. *)
Lemma split_dir_seg (dir seg : string) :
  Py.contains "/"%char seg = false ->
  dir = "" \/ Py.endswith "/"%char dir = true ->
  PosixPath.split (dir ++ seg)
  = (if Py.all_char "/"%char dir then dir else Py.rstrip "/"%char dir, seg).
Proof.
  intros Hseg [-> | Hdir]; unfold PosixPath.split, PosixPath.sep.
  - simpl. apply PyFacts.cut_last_none in Hseg. now rewrite Hseg.
  - destruct (endswith_decomp _ _ Hdir) as [d ->].
    rewrite append_assoc. cbn [append].
    rewrite (@cut_last_unique _ d _ Hseg).
    destruct (Py.all_char "/" (d ++ "/")) eqn:Hall.
    + now rewrite andb_false_r.
    + assert (Ht : Py.truthy (d ++ "/") = true) by now destruct d.
      now rewrite Ht.
Qed.

(** [join] puts a directory and a segment without separator together. *)
Lemma join_dir_seg (dir seg : string) :
  Py.startswith "/"%char seg = false ->
  PosixPath.join dir seg
  = if negb (Py.truthy dir) || Py.endswith "/"%char dir
    then dir ++ seg else dir ++ "/" ++ seg.
Proof. intros H. unfold PosixPath.join, PosixPath.sep. now rewrite H. Qed.

Lemma split_then_join (dir seg seg' : string) :
  Py.contains "/"%char seg = false ->
  dir = "" \/ Py.endswith "/"%char dir = true ->
  Py.startswith "/"%char seg' = false ->
  PosixPath.join (fst (PosixPath.split (dir ++ seg))) seg'
  = collapse_trailing dir ++ seg'.
Proof.
  intros Hseg Hdir Hseg'. rewrite split_dir_seg by assumption. cbn [fst].
  rewrite join_dir_seg by exact Hseg'. unfold collapse_trailing, PosixPath.sep.
  destruct (Py.all_char "/" dir) eqn:Hall.
  - destruct (Py.truthy dir) eqn:Ht; [|reflexivity].
    now rewrite all_char_endswith by assumption.
  - rewrite endswith_rstrip.
    destruct (Py.rstrip "/" dir) as [|x r] eqn:E.
    + apply rstrip_empty in E. congruence.
    + cbn [Py.truthy negb orb]. now rewrite append_assoc.
Qed.

Lemma collapse_trailing_prefix (dir : string) :
  dir = "" \/ Py.endswith "/"%char dir = true ->
  exists seps, Py.all_char "/"%char seps = true /\ dir = collapse_trailing dir ++ seps.
Proof.
  intros Hdir. unfold collapse_trailing, PosixPath.sep.
  destruct (Py.all_char "/" dir) eqn:Hall.
  - exists "". split; [reflexivity | now rewrite append_nil_r].
  - destruct Hdir as [-> | Hdir]; [discriminate Hall|].
    destruct (rstrip_decomp "/" dir) as (seps & Hseps & Hd).
    destruct seps as [|c seps].
    + rewrite append_nil_r in Hd.
      pose proof (endswith_rstrip "/" dir) as Hn. rewrite <- Hd in Hn. congruence.
    + simpl in Hseps. apply andb_true_iff in Hseps. destruct Hseps as [Hc Hseps].
      apply Ascii.eqb_eq in Hc. subst c.
      exists seps. split; [exact Hseps|]. now rewrite append_assoc.
Qed.

End PathFacts.

(** C9: with [force_valid] on, take the path built from root, texture and
    extension, and cut it into its directory part [dir] (empty, or ending
    in a separator) and its last segment [seg] (free of separators). The
    path handed to the writer is the directory part followed by [seg]
    with every space turned into an underscore. The directory part keeps
    its text, spaces included; only a run of separators at its end may
    shrink to one. *)
Theorem force_valid_rewrites_last_segment
    (texture_root : option string) (texture_ext texture dir seg : string) :
  joined_path texture_root texture_ext texture = dir ++ seg ->
  Py.contains "/"%char seg = false ->
  dir = "" \/ Py.endswith "/"%char dir = true ->
  full_texture_path texture_root texture_ext true texture
  = collapse_trailing dir ++ Py.replace " "%char "_"%char seg
  /\ (exists seps,
         Py.all_char "/"%char seps = true /\ dir = collapse_trailing dir ++ seps)
  /\ (forall (tex_type : TextureType) (rest : Gen (TextureType * string))
             (s : list MtlEvent),
         write_textures texture_root texture_ext true (Yield (tex_type, texture) rest) s
         = write_textures texture_root texture_ext true rest
             (s ++ slot_events tex_type
                     (collapse_trailing dir ++ Py.replace " "%char "_"%char seg))%list).
Proof.
  intros Hpath Hseg Hdir.
  assert (Hfull : full_texture_path texture_root texture_ext true texture
                  = collapse_trailing dir ++ Py.replace " "%char "_"%char seg).
  { pose proof (@PathFacts.split_then_join dir seg (Py.replace " "%char "_"%char seg)
                  Hseg Hdir (@PathFacts.startswith_replace seg Hseg)) as Hjoin.
    pose proof (@PathFacts.split_dir_seg dir seg Hseg Hdir) as Hsplit.
    unfold joined_path, full_texture_path in Hpath.
    unfold full_texture_path. rewrite Hpath, Hsplit.
    rewrite Hsplit in Hjoin. exact Hjoin. }
  split; [exact Hfull|].
  split; [now apply PathFacts.collapse_trailing_prefix|].
  intros tex_type rest s. cbn [write_textures].
  now rewrite (bind_return _ _ _ (write_texture_run tex_type _ s)), Hfull.
Qed.

Lemma force_valid_rewrites_last_segment_witness :
  full_texture_path None "" true "tex dir/rifle helmet" = "tex dir/rifle_helmet"
  /\ fst (write_mtrl_to_mtl MaterialSamples.one_char MaterialSamples.helmet
            None None true [])
     = [DefaultTexture "helmet"; TextureNormal "tex dir/rifle_helmet"].
Proof.
  split.
  - exact (proj1 (@force_valid_rewrites_last_segment None "" "tex dir/rifle helmet"
                    "tex dir/" "rifle helmet" eq_refl eq_refl (or_intror eq_refl))).
  - reflexivity.
Defined.

(** * Further properties *)

(** ** More on strings and paths *)

Module PathMore.

Lemma contains_app (c : ascii) (a b : string) :
  Py.contains c (a ++ b) = Py.contains c a || Py.contains c b.
Proof.
  unfold Py.contains. induction a as [|x a IH]; [reflexivity|].
  cbn [append list_ascii_of_string existsb]. now rewrite IH, orb_assoc.
Qed.

Lemma contains_startswith (c : ascii) (s : string) :
  Py.contains c s = false -> Py.startswith c s = false.
Proof.
  destruct s as [|x r]; [reflexivity|].
  unfold Py.contains. cbn [list_ascii_of_string existsb Py.startswith].
  intros H. apply orb_false_iff in H. destruct H as [H _].
  now rewrite Ascii.eqb_sym.
Qed.

Lemma all_char_app (c : ascii) (a b : string) :
  Py.all_char c (a ++ b) = Py.all_char c a && Py.all_char c b.
Proof.
  induction a as [|x a IH]; [reflexivity|].
  cbn [append Py.all_char]. now rewrite IH, andb_assoc.
Qed.

Lemma rstrip_fixed (c : ascii) (s : string) :
  Py.endswith c s = false -> Py.rstrip c s = s.
Proof.
  induction s as [|a r IH]; [reflexivity|].
  destruct r as [|b r].
  - simpl. now intros ->.
  - intros H. change (Py.endswith c (String b r) = false) in H.
    specialize (IH H).
    change (Py.rstrip c (String a (String b r)))
      with (match Py.rstrip c (String b r) with
            | EmptyString => if Ascii.eqb a c then EmptyString else String a EmptyString
            | String x r' => String a (String x r')
            end).
    now rewrite IH.
Qed.

Lemma rstrip_app_seps (c : ascii) (s seps : string) :
  Py.all_char c seps = true -> Py.rstrip c (s ++ seps) = Py.rstrip c s.
Proof.
  intros Hseps. induction s as [|a r IH].
  - simpl. now apply PathFacts.rstrip_empty.
  - cbn [append Py.rstrip]. now rewrite IH.
Qed.

(** Every path is a directory part, empty or ending in a separator,
    followed by a last segment without separator. *)
Lemma path_decomp (p : string) :
  exists dir seg,
    p = dir ++ seg
    /\ Py.contains "/"%char seg = false
    /\ (dir = "" \/ Py.endswith "/"%char dir = true).
Proof.
  destruct (Py.cut_last "/"%char p) as [[before after]|] eqn:E.
  - destruct (PyFacts.cut_last_some _ _ E) as [-> Hafter].
    exists (before ++ "/"), after. rewrite PathFacts.append_assoc.
    repeat split; [exact Hafter|]. right.
    clear. induction before as [|a [|b r] IH]; try reflexivity. exact IH.
  - exists "", p. repeat split; [|now left]. now apply PyFacts.cut_last_none.
Qed.

Lemma collapse_trailing_shape (dir : string) :
  dir = "" \/ Py.endswith "/"%char dir = true ->
  collapse_trailing dir = "" \/ Py.endswith "/"%char (collapse_trailing dir) = true.
Proof.
  intros Hdir. unfold collapse_trailing, PosixPath.sep.
  destruct (Py.all_char "/" dir); [exact Hdir|]. right.
  generalize (Py.rstrip "/" dir). clear.
  intros s. induction s as [|a [|b r] IH]; try reflexivity. exact IH.
Qed.

Lemma head_of_collapse (dir : string) :
  head_of (collapse_trailing dir) = head_of dir.
Proof.
  unfold head_of, collapse_trailing, PosixPath.sep.
  destruct (Py.all_char "/" dir) eqn:Hall; [now rewrite Hall|].
  assert (Hr : Py.all_char "/" (Py.rstrip "/" dir) = false).
  { destruct (PathFacts.rstrip_decomp "/" dir) as (seps & Hseps & Hd).
    rewrite Hd, all_char_app, Hseps, andb_true_r in Hall. exact Hall. }
  rewrite all_char_app, Hr. cbn [andb].
  rewrite rstrip_app_seps by reflexivity.
  apply rstrip_fixed, PathFacts.endswith_rstrip.
Qed.

(** Joining the head of a split with a new last segment and splitting
    again gives the same head and that segment. *)
Lemma split_join_roundtrip (dir seg name : string) :
  Py.contains "/"%char seg = false ->
  dir = "" \/ Py.endswith "/"%char dir = true ->
  Py.contains "/"%char name = false ->
  PosixPath.split (PosixPath.join (fst (PosixPath.split (dir ++ seg))) name)
  = (fst (PosixPath.split (dir ++ seg)), name).
Proof.
  intros Hseg Hdir Hname.
  rewrite (@PathFacts.split_then_join dir seg name Hseg Hdir
             (@contains_startswith _ name Hname)).
  rewrite (@PathFacts.split_dir_seg (collapse_trailing dir) name Hname
             (collapse_trailing_shape Hdir)).
  rewrite (@PathFacts.split_dir_seg dir seg Hseg Hdir). cbn [fst].
  f_equal. apply head_of_collapse.
Qed.

(** [splitext] on a name without separator. *)
Lemma splitext_name (name : string) :
  Py.contains "/"%char name = false ->
  exists stem ext, PosixPath.splitext name = (stem, ext)
    /\ Py.contains "/"%char stem = false.
Proof.
  intros Hname. unfold PosixPath.splitext, PosixPath.sep.
  rewrite (proj2 (PyFacts.cut_last_none _ _) Hname).
  destruct (Py.cut_last "." name) as [[stem ext]|] eqn:E; [|eauto].
  destruct (Py.all_char "." stem); [eauto|].
  exists stem, (String "."%char ext). split; [reflexivity|].
  destruct (PyFacts.cut_last_some _ _ E) as [Hn _].
  rewrite Hn, contains_app in Hname. now apply orb_false_iff in Hname.
Qed.

Lemma splitext_extension (stem ext : string) :
  Py.contains "/"%char stem = false ->
  Py.contains "/"%char ext = false ->
  Py.contains "."%char ext = false ->
  Py.all_char "."%char stem = false ->
  PosixPath.splitext (stem ++ String "."%char ext) = (stem, String "."%char ext).
Proof.
  intros Hstem Hext Hdot Hall. unfold PosixPath.splitext, PosixPath.sep.
  assert (Hn : Py.contains "/" (stem ++ String "."%char ext) = false).
  { rewrite contains_app, Hstem. unfold Py.contains in *.
    cbn [list_ascii_of_string existsb orb]. exact Hext. }
  rewrite (proj2 (PyFacts.cut_last_none _ _) Hn).
  now rewrite (@cut_last_unique _ stem _ Hdot), Hall.
Qed.

Lemma splitext_plain (name : string) :
  Py.contains "/"%char name = false ->
  Py.contains "."%char name = false ->
  PosixPath.splitext name = (name, "").
Proof.
  intros Hname Hdot. unfold PosixPath.splitext, PosixPath.sep.
  rewrite (proj2 (PyFacts.cut_last_none _ _) Hname).
  now rewrite (proj2 (PyFacts.cut_last_none _ _) Hdot).
Qed.

End PathMore.

(** ** [write_matlib_name] *)

Lemma write_matlib_name_run scalar (dir seg stem ext : string)
    (s : list (ObjEvent scalar)) :
  Py.contains "/"%char seg = false ->
  dir = "" \/ Py.endswith "/"%char dir = true ->
  PosixPath.splitext seg = (stem, ext) ->
  Py.contains "/"%char stem = false ->
  @write_matlib_name scalar (dir ++ seg) s
  = ((s ++ [MaterialLibrary (stem ++ ".mtl")])%list,
     Return (collapse_trailing dir ++ stem ++ ".mtl")).
Proof.
  intros Hseg Hdir Hext Hstem. unfold write_matlib_name.
  assert (Hname : Py.contains "/"%char (stem ++ ".mtl") = false)
    by now rewrite PathMore.contains_app, Hstem.
  pose proof (@PathFacts.split_then_join dir seg (stem ++ ".mtl") Hseg Hdir
                (@PathMore.contains_startswith _ _ Hname)) as Hjoin.
  destruct (PosixPath.split (dir ++ seg)) as [dirname filename] eqn:Hsplit.
  rewrite (@PathFacts.split_dir_seg dir seg Hseg Hdir) in Hsplit.
  injection Hsplit as _ <-. rewrite Hext. cbn [fst] in Hjoin.
  rewrite bind_emit. unfold ret. now rewrite Hjoin.
Qed.

(** X1: [write_matlib_name] always completes. It writes one
    material-library reference whose name ends in ".mtl" and has no
    directory part, and returns that name joined to the directory of the
    OBJ path: splitting the returned path gives back the directory of the
    OBJ path and the name that was written. *)
Theorem write_matlib_name_sibling scalar (obj_path : string)
    (s : list (ObjEvent scalar)) :
  exists stem : string,
    @write_matlib_name scalar obj_path s
    = ((s ++ [MaterialLibrary (stem ++ ".mtl")])%list,
       Return (PosixPath.join (fst (PosixPath.split obj_path)) (stem ++ ".mtl")))
    /\ Py.contains "/"%char (stem ++ ".mtl") = false
    /\ PosixPath.split (PosixPath.join (fst (PosixPath.split obj_path)) (stem ++ ".mtl"))
       = (fst (PosixPath.split obj_path), stem ++ ".mtl").
Proof.
  destruct (PathMore.path_decomp obj_path) as (dir & seg & -> & Hseg & Hdir).
  destruct (@PathMore.splitext_name seg Hseg) as (stem & ext & Hext & Hstem).
  assert (Hname : Py.contains "/"%char (stem ++ ".mtl") = false)
    by now rewrite PathMore.contains_app, Hstem.
  exists stem. split; [|split].
  - rewrite (@write_matlib_name_run scalar dir seg stem ext s Hseg Hdir Hext Hstem).
    now rewrite (@PathFacts.split_then_join dir seg (stem ++ ".mtl") Hseg Hdir
                   (@PathMore.contains_startswith _ _ Hname)).
  - exact Hname.
  - now apply PathMore.split_join_roundtrip.
Qed.

(** X2: for an OBJ path made of a directory part, a stem and an extension
    without further dots, the library name is the stem with ".mtl", provided
    the stem is not made of dots only; a stem of dots only (a hidden file
    such as ".obj") is no extension and ".mtl" is appended to the whole
    name, as it is to a name without any dot. *)
Theorem write_matlib_name_replaces_extension scalar (dir stem ext : string)
    (s : list (ObjEvent scalar)) :
  dir = "" \/ Py.endswith "/"%char dir = true ->
  Py.contains "/"%char stem = false ->
  Py.contains "/"%char ext = false ->
  Py.contains "."%char ext = false ->
  (Py.all_char "."%char stem = false ->
   @write_matlib_name scalar (dir ++ stem ++ String "."%char ext) s
   = ((s ++ [MaterialLibrary (stem ++ ".mtl")])%list,
      Return (collapse_trailing dir ++ stem ++ ".mtl")))
  /\ (Py.all_char "."%char stem = true ->
      @write_matlib_name scalar (dir ++ stem ++ String "."%char ext) s
      = ((s ++ [MaterialLibrary ((stem ++ String "."%char ext) ++ ".mtl")])%list,
         Return (collapse_trailing dir ++ (stem ++ String "."%char ext) ++ ".mtl")))
  /\ (Py.contains "."%char stem = false ->
      @write_matlib_name scalar (dir ++ stem) s
      = ((s ++ [MaterialLibrary (stem ++ ".mtl")])%list,
         Return (collapse_trailing dir ++ stem ++ ".mtl"))).
Proof.
  intros Hdir Hstem Hext Hdot.
  assert (Hseg : Py.contains "/"%char (stem ++ String "."%char ext) = false).
  { rewrite PathMore.contains_app, Hstem. unfold Py.contains in *.
    cbn [list_ascii_of_string existsb orb]. exact Hext. }
  split; [|split].
  - intros Hall. apply write_matlib_name_run with (ext := String "."%char ext);
      try assumption.
    now apply PathMore.splitext_extension.
  - intros Hall. apply write_matlib_name_run with (ext := ""); try assumption.
    unfold PosixPath.splitext, PosixPath.sep.
    rewrite (proj2 (PyFacts.cut_last_none _ _) Hseg).
    now rewrite (@cut_last_unique _ stem _ Hdot), Hall.
  - intros Hplain. apply write_matlib_name_run with (ext := ""); try assumption.
    now apply PathMore.splitext_plain.
Qed.

Lemma write_matlib_name_replaces_extension_witness :
  @write_matlib_name Z "models/unit.obj" []
  = ([MaterialLibrary "unit.mtl"], Return "models/unit.mtl")
  /\ @write_matlib_name Z "models/.obj" []
     = ([MaterialLibrary ".obj.mtl"], Return "models/.obj.mtl").
Proof.
  split.
  - exact (proj1 (@write_matlib_name_replaces_extension Z "models/" "unit" "obj" []
                    (or_intror eq_refl) eq_refl eq_refl eq_refl) eq_refl).
  - exact (proj1 (proj2 (@write_matlib_name_replaces_extension Z "models/" "" "obj" []
                    (or_intror eq_refl) eq_refl eq_refl eq_refl)) eq_refl).
Defined.

(** ** More on the geometry writer *)

Section GeometryMore.

Variable scalar : Type.

Lemma face_offsets_app (a b : list (ObjEvent scalar)) :
  face_offsets (a ++ b) = (face_offsets a ++ face_offsets b)%list.
Proof.
  induction a as [|e a IH]; [reflexivity|].
  destruct e; cbn [app face_offsets]; rewrite IH; reflexivity.
Qed.

Lemma face_offsets_vertices (vs : list (Vertex scalar)) :
  face_offsets (flat_map (@vertex_events scalar) vs) = [].
Proof.
  induction vs as [|[[[x y] z] [[nx ny] nz] [tu tv]] vs IH]; [reflexivity|].
  cbn [flat_map]. rewrite face_offsets_app, IH. reflexivity.
Qed.

Lemma face_offsets_faces (v_offset : Z) (ts : list (Z * Z * Z)) :
  face_offsets (flat_map (face_events scalar v_offset) ts)
  = repeat v_offset (length ts).
Proof.
  induction ts as [|[[i j] k] ts IH]; [reflexivity|].
  cbn [flat_map length repeat]. rewrite face_offsets_app, IH. reflexivity.
Qed.

Lemma triangles_length (idx : list Z) :
  length (triangles idx) = length idx / 3.
Proof.
  assert (H : forall n l, length l <= n -> length (triangles l) = length l / 3).
  { induction n as [|n IH]; intros l Hl.
    - destruct l; [reflexivity | simpl in Hl; lia].
    - destruct l as [|x [|y [|z l']]]; try reflexivity.
      cbn [triangles length]. rewrite IH by (simpl in Hl; lia).
      change (S (S (S (length l')))) with (1 * 3 + length l').
      rewrite Nat.div_add_l by lia. lia. }
  now apply (H (length idx)).
Qed.

Lemma face_offsets_trim (chunk : TrimDataChunk scalar) (label : string) (v_offset : Z) :
  face_offsets (trim_events chunk label v_offset)
  = repeat v_offset (length (indexes chunk) / 3).
Proof.
  unfold trim_events. rewrite !face_offsets_app, face_offsets_vertices,
    face_offsets_faces, triangles_length. reflexivity.
Qed.

(** X3: when [write_trim_data_to_obj] returns, it has written
    [len(indexes) // 3] faces, every one under the offset it was given
    (one or two indexes left over at the end are not written), and its
    result is that offset plus the number of vertices. *)
Theorem write_trim_data_to_obj_faces (chunk : TrimDataChunk scalar)
    (name : option string) (v_offset : Z) (validate axis_fix : bool)
    (s s' : list (ObjEvent scalar)) (r : Z) :
  write_trim_data_to_obj chunk name v_offset validate axis_fix s = (s', Return r) ->
  face_offsets s'
  = (face_offsets s ++ repeat v_offset (length (indexes chunk) / 3))%list
  /\ r = (v_offset + Z.of_nat (length (vertexes chunk)))%Z.
Proof.
  destruct (unpack2 (name_source name (material_name chunk))) as [[p label]|e] eqn:E.
  - rewrite (write_trim_data_to_obj_return chunk name v_offset validate axis_fix s E).
    intros H. injection H as <- <-.
    now rewrite face_offsets_app, face_offsets_trim.
  - rewrite (write_trim_data_to_obj_raise chunk name v_offset validate axis_fix s E).
    discriminate.
Qed.

(** X4: the only way [write_trim_data_to_obj] raises is the ValueError of
    the label step; it happens right after the first comment line, before
    any vertex or face is written, and no index list causes an
    IndexError. *)
Theorem write_trim_data_to_obj_only_failure (chunk : TrimDataChunk scalar)
    (name : option string) (v_offset : Z) (validate axis_fix : bool)
    (s s' : list (ObjEvent scalar)) (e : Exception) :
  write_trim_data_to_obj chunk name v_offset validate axis_fix s = (s', Raise e) ->
  s' = (s ++ [StreamWrite (Py.LF ++ "# Object" ++ Py.LF)])%list
  /\ (e = ValueError (NotEnoughValues 2 1) \/ e = ValueError (TooManyValues 2)).
Proof.
  destruct (unpack2 (name_source name (material_name chunk))) as [[p label]|e0] eqn:E.
  - rewrite (write_trim_data_to_obj_return chunk name v_offset validate axis_fix s E).
    discriminate.
  - rewrite (write_trim_data_to_obj_raise chunk name v_offset validate axis_fix s E).
    intros H. injection H as <- <-. split; [reflexivity|].
    unfold unpack2 in E.
    destruct (name_source name (material_name chunk)) as [|a [|b [|c l]]] eqn:En;
      try discriminate E; injection E as <-; auto.
    exfalso. unfold name_source, Py.rsplit1 in En.
    destruct (Py.cut_last "." (material_name chunk)) as [[? ?]|];
      destruct name as [[|x n]|]; cbn [Py.truthy] in En; try discriminate En.
    all: pose proof (CharFacts.chars_length (String x n)) as Hl;
      rewrite En in Hl; discriminate Hl.
Qed.

End GeometryMore.

Lemma write_trim_data_to_obj_faces_witness :
  face_offsets
    (fst (write_trim_data_to_obj Samples.helmet_mesh None 5 true true []))
  = [5%Z]
  /\ 8%Z = (5 + 3)%Z.
Proof.
  exact (@write_trim_data_to_obj_faces Z Samples.helmet_mesh None 5%Z true true []
           (fst (write_trim_data_to_obj Samples.helmet_mesh None 5 true true []))
           8%Z eq_refl).
Defined.

Lemma write_trim_data_to_obj_only_failure_witness :
  [StreamWrite (Py.LF ++ "# Object" ++ Py.LF)]
  = ([] ++ [@StreamWrite Z (Py.LF ++ "# Object" ++ Py.LF)])%list
  /\ (ValueError (NotEnoughValues 2 1) = ValueError (NotEnoughValues 2 1)
      \/ ValueError (NotEnoughValues 2 1) = ValueError (TooManyValues 2)).
Proof.
  exact (@write_trim_data_to_obj_only_failure Z Samples.plain_mesh None 0%Z true true
           [] [StreamWrite (Py.LF ++ "# Object" ++ Py.LF)]
           (ValueError (NotEnoughValues 2 1)) eq_refl).
Defined.

Section ModelMore.

Variable scalar : Type.

(** Running the loop over sub-meshes that all have a separator, then over
    more of them. *)
Lemma write_model_loop_app (good l : list (TrimDataChunk scalar)) :
  Forall (@has_separator scalar) good ->
  forall v_offset (s : list (ObjEvent scalar)),
    write_model_loop (good ++ l) v_offset s
    = write_model_loop l (offset_after good v_offset)
        (fst (write_model_loop good v_offset s)).
Proof.
  induction 1 as [|chunk rest Hsep _ IH]; intros v_offset s; [reflexivity|].
  destruct (name_source_derived _ Hsep) as (p & q & _ & _ & Hname).
  cbn [app write_model_loop offset_after].
  rewrite !(bind_return _ _ _
              (write_trim_data_to_obj_return chunk None v_offset true true s Hname)).
  apply IH.
Qed.

(** X5: a sub-mesh whose material name has no dot stops
    [write_model_to_obj] with ValueError. The sub-meshes before it are in
    the stream in full, followed by the first comment line of the failing
    one; the sub-meshes after it are not looked at. *)
Theorem write_model_to_obj_stops_at_first_unnamed
    (good rest : list (TrimDataChunk scalar)) (bad : TrimDataChunk scalar)
    (materials : list MtrlChunk) (s : list (ObjEvent scalar)) :
  Forall (@has_separator scalar) good ->
  Py.contains "."%char (material_name bad) = false ->
  write_model_to_obj {| meshs := good ++ bad :: rest; mtrls := materials |} s
  = ((fst (write_model_to_obj {| meshs := good; mtrls := materials |} s)
        ++ [StreamWrite (Py.LF ++ "# Object" ++ Py.LF)])%list,
     Raise (ValueError (NotEnoughValues 2 1))).
Proof.
  intros Hgood Hbad. unfold write_model_to_obj. cbn [meshs].
  rewrite (write_model_loop_app (bad :: rest) Hgood).
  cbn [write_model_loop].
  apply bind_raise, write_trim_data_to_obj_raise.
  now apply name_source_underivable.
Qed.

Lemma offset_after_exact (l : list (TrimDataChunk scalar)) :
  forall v_offset, (0 <= v_offset)%Z ->
    offset_after l v_offset = (v_offset + total_vertex_count l)%Z
    <-> l = [] \/ (v_offset = 0%Z /\ only_last_has_vertices l).
Proof.
  induction l as [|chunk rest IH]; intros v_offset Hpos.
  - cbn. split; [now left | lia].
  - assert (Hv : (0 <= vertex_count chunk)%Z) by (unfold vertex_count; lia).
    pose proof (@offset_after_lower_bound scalar rest
                  (v_offset + (v_offset + vertex_count chunk))%Z ltac:(lia)) as Hlow.
    specialize (IH (v_offset + (v_offset + vertex_count chunk))%Z ltac:(lia)).
    cbn [offset_after total_vertex_count fold_right only_last_has_vertices].
    fold (total_vertex_count rest) in *.
    split.
    + intros Heq. right.
      assert (v_offset = 0%Z) by lia. subst v_offset. split; [reflexivity|].
      destruct IH as [IH _]. specialize (IH ltac:(lia)).
      destruct rest as [|c rest']; [exact I|].
      destruct IH as [IH | [IH1 IH2]]; [discriminate IH|].
      split; [lia | exact IH2].
    + intros [Hnil | [-> Hlast]]; [discriminate Hnil|].
      destruct rest as [|c rest'].
      * cbn. lia.
      * destruct Hlast as [Hzero Hlast].
        destruct IH as [_ IH].
        assert (Hstart : (0 + (0 + vertex_count chunk) = 0)%Z) by lia.
        specialize (IH (or_intror (conj Hstart Hlast))).
        lia.
Qed.

(** X6: on a model whose material names all have a dot, the result of
    [write_model_to_obj] is never below the number of vertices written,
    and it equals that number exactly when no sub-mesh before the last
    one has vertices. *)
Theorem write_model_to_obj_total_iff (chunk : ModelChunky scalar)
    (s : list (ObjEvent scalar)) :
  Forall (@has_separator scalar) (meshs chunk) ->
  exists r : Z,
    snd (write_model_to_obj chunk s) = Return r
    /\ (total_vertex_count (meshs chunk) <= r)%Z
    /\ (r = total_vertex_count (meshs chunk)
        <-> only_last_has_vertices (meshs chunk)).
Proof.
  intros Hsep. exists (offset_after (meshs chunk) 0).
  split; [now apply write_model_to_obj_return|].
  pose proof (@offset_after_lower_bound scalar (meshs chunk) 0%Z ltac:(lia)) as Hlow.
  pose proof (@offset_after_exact (meshs chunk) 0%Z ltac:(lia)) as Hex.
  split; [lia|].
  rewrite Z.add_0_l in Hex. rewrite Hex.
  split.
  - intros [Hnil | [_ H]]; [now rewrite Hnil | exact H].
  - intros H. now right.
Qed.

End ModelMore.

Lemma write_model_to_obj_stops_at_first_unnamed_witness :
  write_model_to_obj
    {| meshs := [Samples.point_mesh] ++ Samples.plain_mesh :: [Samples.point_mesh];
       mtrls := [] |} []
  = ((fst (write_model_to_obj {| meshs := [Samples.point_mesh]; mtrls := [] |} [])
        ++ [StreamWrite (Py.LF ++ "# Object" ++ Py.LF)])%list,
     Raise (ValueError (NotEnoughValues 2 1))).
Proof.
  apply (@write_model_to_obj_stops_at_first_unnamed Z [Samples.point_mesh]
           [Samples.point_mesh] Samples.plain_mesh [] []).
  - constructor; [reflexivity | constructor].
  - reflexivity.
Defined.

Lemma write_model_to_obj_total_iff_witness :
  exists r : Z,
    snd (write_model_to_obj Samples.two_meshes []) = Return r
    /\ (total_vertex_count (meshs Samples.two_meshes) <= r)%Z
    /\ (r = total_vertex_count (meshs Samples.two_meshes)
        <-> only_last_has_vertices (meshs Samples.two_meshes)).
Proof.
  apply (@write_model_to_obj_total_iff Z Samples.two_meshes []).
  repeat constructor.
Defined.

(** ** More on slots and the material writer *)

(** X7: looking a member up by value inverts [value]: [TextureType(s)]
    returns the member [t] exactly when [s] is the wire string of [t]; two
    members never share a wire string; and the lookup raises ValueError
    exactly on the strings that are no member's wire string. *)
Theorem TextureType_value_roundtrip :
  (forall (s : string) (t : TextureType),
      TextureType_call s = Return t <-> TextureType_value t = s)
  /\ (forall t u : TextureType,
         TextureType_value t = TextureType_value u -> t = u)
  /\ (forall s : string,
         TextureType_call s = Raise (ValueError (NotAValidMember s "TextureType"))
         <-> ~ known_slot s).
Proof.
  split; [|split].
  - intros s t. split; [apply TextureType_call_return|].
    intros <-. apply TextureType_call_value.
  - intros t u H.
    pose proof (TextureType_call_value t) as Ht. rewrite H in Ht.
    rewrite TextureType_call_value in Ht. now injection Ht.
  - intros s. split; [|apply TextureType_call_unknown].
    intros H [t Ht]. subst s. rewrite TextureType_call_value in H. discriminate H.
Qed.

Lemma TextureType_value_roundtrip_witness :
  TextureType_call "diffuseTex" = Return Diffuse
  /\ TextureType_call "lightMap"
     = Raise (ValueError (NotAValidMember "lightMap" "TextureType")).
Proof.
  split.
  - apply (proj2 (proj1 TextureType_value_roundtrip "diffuseTex" Diffuse)).
    reflexivity.
  - apply (proj2 (proj2 (proj2 TextureType_value_roundtrip) "lightMap")).
    intros [t Ht]. destruct t; discriminate Ht.
Defined.

Lemma ending_none_extractable (chunks : list VarChunk) :
  ending (fetch_textures_from_dow2_unit chunks) = None <-> Forall extractable chunks.
Proof.
  split; [|intros H; now apply fetch_extractable].
  induction chunks as [|chunk rest IH]; [constructor|].
  cbn [fetch_textures_from_dow2_unit].
  destruct (MaterialVarType_ne (var_type chunk) Texture) eqn:Hk.
  - intros H. constructor; [|now apply IH].
    intros Ht. rewrite Ht in Hk. discriminate Hk.
  - destruct (TextureType_call (property_name chunk)) as [t|e] eqn:Hc;
      cbn [ending]; [|discriminate].
    intros H. constructor; [|now apply IH].
    intros _. exists t. now apply TextureType_call_return.
Qed.

Lemma text_length_app (mtl_text : MtlEvent -> string) (a b : list MtlEvent) :
  text_length mtl_text (a ++ b)
  = (text_length mtl_text a + text_length mtl_text b)%Z.
Proof.
  unfold text_length. induction a as [|e a IH]; cbn [app fold_right]; lia.
Qed.

Lemma text_length_nonneg (mtl_text : MtlEvent -> string) (a : list MtlEvent) :
  (0 <= text_length mtl_text a)%Z.
Proof.
  unfold text_length. induction a as [|e a IH]; cbn [fold_right]; lia.
Qed.

Lemma str_in_supported_dec (chunk : MtrlChunk) :
  str_in (shader_name chunk) [Dow2_Unit; Dow2_Unit_2Uv] = true
  <-> (shader_name chunk = "dow2_unit" \/ shader_name chunk = "dow2_unit_2uv").
Proof. apply str_in_supported. Qed.

(** The full account of one call of [write_mtrl_to_mtl] on a writable
    material. *)
Lemma write_mtrl_to_mtl_writable (mtl_text : MtlEvent -> string) (chunk : MtrlChunk)
    (texture_root texture_ext : option string) (force_valid : bool)
    (s : list MtlEvent) :
  writable chunk ->
  write_mtrl_to_mtl mtl_text chunk texture_root texture_ext force_valid s
  = ((s ++ material_events' chunk texture_root texture_ext force_valid)%list,
     Return (text_length mtl_text
               (material_events' chunk texture_root texture_ext force_valid))).
Proof.
  intros [Hshader Hvars]. apply str_in_supported_dec in Hshader.
  rewrite (write_mtrl_to_mtl_supported mtl_text chunk texture_root texture_ext
             force_valid s Hshader).
  rewrite (proj2 (ending_none_extractable _) Hvars).
  fold (material_events' chunk texture_root texture_ext force_valid).
  rewrite text_length_app. do 2 f_equal. lia.
Qed.

Lemma write_mtrl_to_mtl_not_writable (mtl_text : MtlEvent -> string) (chunk : MtrlChunk)
    (texture_root texture_ext : option string) (force_valid : bool)
    (s : list MtlEvent) :
  ~ writable chunk ->
  exists e, snd (write_mtrl_to_mtl mtl_text chunk texture_root texture_ext force_valid s)
            = Raise e.
Proof.
  intros Hnot.
  destruct (str_in (shader_name chunk) [Dow2_Unit; Dow2_Unit_2Uv]) eqn:E.
  - rewrite (write_mtrl_to_mtl_supported mtl_text chunk texture_root texture_ext
               force_valid s E). cbn [snd].
    destruct (ending (fetch_textures_from_dow2_unit (vars chunk))) as [e|] eqn:He;
      [eauto|].
    elim Hnot. split; [now apply str_in_supported_dec | now apply ending_none_extractable].
  - rewrite (write_mtrl_to_mtl_unsupported mtl_text chunk texture_root texture_ext
               force_valid s E). cbn [snd]. eauto.
Qed.

Lemma write_mtrl_to_mtl_return_writable (mtl_text : MtlEvent -> string)
    (chunk : MtrlChunk) (texture_root texture_ext : option string)
    (force_valid : bool) (s : list MtlEvent) (r : Z) :
  snd (write_mtrl_to_mtl mtl_text chunk texture_root texture_ext force_valid s)
  = Return r ->
  writable chunk.
Proof.
  destruct (str_in (shader_name chunk) [Dow2_Unit; Dow2_Unit_2Uv]) eqn:E.
  - rewrite (write_mtrl_to_mtl_supported mtl_text chunk texture_root texture_ext
               force_valid s E). cbn [snd].
    destruct (ending (fetch_textures_from_dow2_unit (vars chunk))) as [e|] eqn:He;
      [discriminate|].
    intros _. split; [now apply str_in_supported_dec | now apply ending_none_extractable].
  - rewrite (write_mtrl_to_mtl_unsupported mtl_text chunk texture_root texture_ext
               force_valid s E). discriminate.
Qed.

(** X8: [write_mtrl_to_mtl] returns exactly on the materials whose shader
    is "dow2_unit" or "dow2_unit_2uv" and whose texture variables all name
    a known slot; on every other material it raises. Roots, extensions,
    [force_valid] and the stream play no part in that. *)
Theorem write_mtrl_to_mtl_returns_iff (mtl_text : MtlEvent -> string)
    (chunk : MtrlChunk) (texture_root texture_ext : option string)
    (force_valid : bool) (s : list MtlEvent) :
  (exists r, snd (write_mtrl_to_mtl mtl_text chunk texture_root texture_ext
                    force_valid s) = Return r)
  <-> ((shader_name chunk = "dow2_unit" \/ shader_name chunk = "dow2_unit_2uv")
       /\ Forall extractable (vars chunk)).
Proof.
  split.
  - intros [r Hr]. exact (write_mtrl_to_mtl_return_writable _ _ _ _ _ _ Hr).
  - intros Hw. fold (writable chunk) in Hw.
    rewrite (write_mtrl_to_mtl_writable mtl_text texture_root texture_ext
               force_valid s Hw). cbn [snd]. eauto.
Qed.

Lemma write_mtrl_to_mtl_returns_iff_witness :
  exists r, snd (write_mtrl_to_mtl MaterialSamples.one_char MaterialSamples.rifle
                   None None true []) = Return r.
Proof.
  apply (proj2 (write_mtrl_to_mtl_returns_iff MaterialSamples.one_char
                  MaterialSamples.rifle None None true [])).
  split; [left; reflexivity|].
  constructor; [|constructor]. intros _. now exists Diffuse.
Defined.

(** X9: when [write_mtrl_to_mtl] returns, the stream has grown by the
    default-texture directive followed by the directives of the texture
    variables in order, and the result is the number of characters of
    exactly these directives: it does not depend on what the stream held
    before, and it is never negative. *)
Theorem write_mtrl_to_mtl_result (mtl_text : MtlEvent -> string)
    (chunk : MtrlChunk) (texture_root texture_ext : option string)
    (force_valid : bool) (s s' : list MtlEvent) (r : Z) :
  write_mtrl_to_mtl mtl_text chunk texture_root texture_ext force_valid s
  = (s', Return r) ->
  s' = (s ++ DefaultTexture (name chunk)
          :: flat_map (texture_events texture_root (Py.or_else texture_ext "")
                         force_valid)
               (yields (fetch_textures_from_dow2_unit (vars chunk))))%list
  /\ r = text_length mtl_text
           (DefaultTexture (name chunk)
              :: flat_map (texture_events texture_root (Py.or_else texture_ext "")
                             force_valid)
                   (yields (fetch_textures_from_dow2_unit (vars chunk))))
  /\ (0 <= r)%Z.
Proof.
  intros H.
  assert (Hw : writable chunk).
  { apply (@write_mtrl_to_mtl_return_writable mtl_text chunk texture_root texture_ext
             force_valid s r). now rewrite H. }
  rewrite (write_mtrl_to_mtl_writable mtl_text texture_root texture_ext
             force_valid s Hw) in H.
  pose proof (text_length_nonneg mtl_text
                (material_events' chunk texture_root texture_ext force_valid)) as Hn.
  injection H as <- <-.
  split; [reflexivity|]. split; [reflexivity|]. exact Hn.
Qed.

Lemma write_mtrl_to_mtl_result_witness :
  [DefaultTexture "rifle"; TextureDiffuse "textures/tex/rifle_d.dds";
   TextureAlpha "textures/tex/rifle_d.dds"]
  = ([] ++ DefaultTexture (name MaterialSamples.rifle)
        :: flat_map (texture_events (Some "textures") (Py.or_else (Some ".dds") "") true)
             (yields (fetch_textures_from_dow2_unit (vars MaterialSamples.rifle))))%list
  /\ 3%Z = text_length MaterialSamples.one_char
             (DefaultTexture (name MaterialSamples.rifle)
                :: flat_map (texture_events (Some "textures")
                               (Py.or_else (Some ".dds") "") true)
                     (yields (fetch_textures_from_dow2_unit (vars MaterialSamples.rifle))))
  /\ (0 <= 3)%Z.
Proof.
  exact (@write_mtrl_to_mtl_result MaterialSamples.one_char MaterialSamples.rifle
           (Some "textures") (Some ".dds") true []
           [DefaultTexture "rifle"; TextureDiffuse "textures/tex/rifle_d.dds";
            TextureAlpha "textures/tex/rifle_d.dds"] 3%Z eq_refl).
Defined.

Lemma texture_events_count (texture_root : option string) (texture_ext : string)
    (force_valid : bool) (chunks : list VarChunk) :
  Forall extractable chunks ->
  length (flat_map (texture_events texture_root texture_ext force_valid)
            (yields (fetch_textures_from_dow2_unit chunks)))
  = length (filter is_texture chunks) + length (filter is_diffuse chunks).
Proof.
  induction 1 as [|chunk rest Hc _ IH]; [reflexivity|].
  cbn [filter]. unfold is_diffuse at 1.
  destruct (var_type_dec chunk) as [Hk|Hk].
  - destruct (Hc Hk) as [t Ht].
    rewrite (@fetch_yield chunk rest t Hk (eq_sym Ht)).
    rewrite (proj2 (is_texture_true chunk) Hk). cbn [andb yields flat_map].
    rewrite length_app, IH. unfold texture_events at 1. cbn [fst snd].
    rewrite <- Ht.
    destruct t; cbn [TextureType_value String.eqb slot_events length]; simpl; lia.
  - rewrite (@fetch_skip chunk rest Hk).
    destruct (is_texture chunk) eqn:E; [|exact IH].
    apply is_texture_true in E. contradiction.
Qed.

(** X10: on a material it gets through, [write_mtrl_to_mtl] appends one
    directive for the material itself, one for every texture variable and
    one more for every diffuse texture variable: no texture variable goes
    without a directive, and variables of other kinds add none. *)
Theorem write_mtrl_to_mtl_directive_count (mtl_text : MtlEvent -> string)
    (chunk : MtrlChunk) (texture_root texture_ext : option string)
    (force_valid : bool) (s : list MtlEvent) :
  (shader_name chunk = "dow2_unit" \/ shader_name chunk = "dow2_unit_2uv") ->
  Forall extractable (vars chunk) ->
  length (fst (write_mtrl_to_mtl mtl_text chunk texture_root texture_ext force_valid s))
  = length s + 1 + length (filter is_texture (vars chunk))
    + length (filter is_diffuse (vars chunk)).
Proof.
  intros Hshader Hvars.
  rewrite (write_mtrl_to_mtl_writable mtl_text texture_root texture_ext
             force_valid s (conj Hshader Hvars)).
  cbn [fst]. rewrite length_app. unfold material_events'. cbn [length].
  rewrite (texture_events_count _ _ _ Hvars). lia.
Qed.

Lemma write_mtrl_to_mtl_directive_count_witness :
  length (fst (write_mtrl_to_mtl MaterialSamples.one_char MaterialSamples.rifle
                 None None true []))
  = 0 + 1 + 1 + 1.
Proof.
  apply (@write_mtrl_to_mtl_directive_count MaterialSamples.one_char
           MaterialSamples.rifle None None true []).
  - left; reflexivity.
  - constructor; [|constructor]. intros _. now exists Diffuse.
Defined.

(** X11: on a supported shader, a texture variable with an unknown
    property name that follows extractable variables stops
    [write_mtrl_to_mtl] with ValueError carrying that name. The
    default-texture directive and the directives of the variables before
    it are in the stream by then; the variables after it are never
    reached. *)
Theorem write_mtrl_to_mtl_stray_variable (mtl_text : MtlEvent -> string)
    (chunk : MtrlChunk) (before rest : list VarChunk) (stray : VarChunk)
    (texture_root texture_ext : option string) (force_valid : bool)
    (s : list MtlEvent) :
  (shader_name chunk = "dow2_unit" \/ shader_name chunk = "dow2_unit_2uv") ->
  vars chunk = (before ++ stray :: rest)%list ->
  Forall extractable before ->
  var_type stray = Texture ->
  ~ known_slot (property_name stray) ->
  write_mtrl_to_mtl mtl_text chunk texture_root texture_ext force_valid s
  = ((s ++ DefaultTexture (name chunk)
         :: flat_map (texture_events texture_root (Py.or_else texture_ext "")
                        force_valid)
              (yields (fetch_textures_from_dow2_unit before)))%list,
     Raise (ValueError (NotAValidMember (property_name stray) "TextureType"))).
Proof.
  intros Hshader Hvars Hbefore Hk Hp. apply str_in_supported_dec in Hshader.
  rewrite (write_mtrl_to_mtl_supported mtl_text chunk texture_root texture_ext
             force_valid s Hshader).
  rewrite Hvars.
  destruct (fetch_extractable_then (stray :: rest) Hbefore) as [Hy He].
  rewrite Hy, He, (@fetch_throw stray rest Hk Hp). cbn [yields ending].
  now rewrite app_nil_r.
Qed.

Lemma write_mtrl_to_mtl_stray_variable_witness :
  write_mtrl_to_mtl MaterialSamples.one_char
    {| name := "mixed"; shader_name := "dow2_unit";
       vars := MaterialSamples.mixed_vars ++ MaterialSamples.stray_var
                 :: MaterialSamples.mixed_vars |}
    None None true []
  = ([DefaultTexture "mixed"; TextureNormal "tex/n";
      TextureDiffuse "tex/d"; TextureAlpha "tex/d"],
     Raise (ValueError (NotAValidMember "lightMap" "TextureType"))).
Proof.
  apply (@write_mtrl_to_mtl_stray_variable MaterialSamples.one_char
           {| name := "mixed"; shader_name := "dow2_unit";
              vars := MaterialSamples.mixed_vars ++ MaterialSamples.stray_var
                        :: MaterialSamples.mixed_vars |}
           MaterialSamples.mixed_vars MaterialSamples.mixed_vars
           MaterialSamples.stray_var None None true []).
  - left; reflexivity.
  - reflexivity.
  - exact mixed_vars_extractable.
  - reflexivity.
  - exact lightMap_unknown.
Defined.

(** ** The [force_valid] step, once more *)

Module SanitiseFacts.

Lemma contains_replace (seg : string) :
  Py.contains "/"%char (Py.replace " "%char "_"%char seg)
  = Py.contains "/"%char seg.
Proof.
  unfold Py.contains. induction seg as [|x r IH]; [reflexivity|].
  cbn [Py.replace list_ascii_of_string existsb]. rewrite IH. f_equal.
  destruct (Ascii.eqb x " ") eqn:E; [|reflexivity].
  apply Ascii.eqb_eq in E. now subst x.
Qed.

Lemma replace_no_space (s : string) :
  Py.contains " "%char (Py.replace " "%char "_"%char s) = false.
Proof.
  unfold Py.contains. induction s as [|x r IH]; [reflexivity|].
  cbn [Py.replace list_ascii_of_string existsb]. rewrite IH, orb_false_r.
  destruct (Ascii.eqb x " ") eqn:E; [reflexivity|].
  now rewrite Ascii.eqb_sym.
Qed.

Lemma replace_idempotent (s : string) :
  Py.replace " "%char "_"%char (Py.replace " "%char "_"%char s)
  = Py.replace " "%char "_"%char s.
Proof.
  induction s as [|x r IH]; [reflexivity|].
  cbn [Py.replace]. rewrite IH. f_equal.
  destruct (Ascii.eqb x " ") eqn:E; [reflexivity | now rewrite E].
Qed.

Lemma collapse_trailing_idempotent (dir : string) :
  collapse_trailing (collapse_trailing dir) = collapse_trailing dir.
Proof.
  unfold collapse_trailing at 2 3. unfold PosixPath.sep.
  destruct (Py.all_char "/" dir) eqn:Hall.
  - unfold collapse_trailing, PosixPath.sep. now rewrite Hall.
  - assert (Hr : Py.all_char "/" (Py.rstrip "/" dir) = false).
    { destruct (PathFacts.rstrip_decomp "/" dir) as (seps & Hseps & Hd).
      rewrite Hd, PathMore.all_char_app, Hseps, andb_true_r in Hall. exact Hall. }
    unfold collapse_trailing, PosixPath.sep.
    rewrite PathMore.all_char_app, Hr. cbn [andb].
    rewrite PathMore.rstrip_app_seps by reflexivity.
    now rewrite (PathMore.rstrip_fixed _ _ (PathFacts.endswith_rstrip "/" dir)).
Qed.

(** The path handed to the writer, for a texture given as directory part
    and last segment, without root and extension. *)
Lemma sanitised_decomp (dir seg : string) :
  Py.contains "/"%char seg = false ->
  dir = "" \/ Py.endswith "/"%char dir = true ->
  full_texture_path None "" true (dir ++ seg)
  = collapse_trailing dir ++ Py.replace " "%char "_"%char seg.
Proof.
  intros Hseg Hdir.
  pose proof (@PathFacts.split_then_join dir seg (Py.replace " "%char "_"%char seg)
                Hseg Hdir (@PathFacts.startswith_replace seg Hseg)) as Hjoin.
  pose proof (@PathFacts.split_dir_seg dir seg Hseg Hdir) as Hsplit.
  unfold full_texture_path. rewrite PathFacts.append_nil_r, Hsplit.
  rewrite Hsplit in Hjoin. exact Hjoin.
Qed.

End SanitiseFacts.

(** X12: the [force_valid] step is idempotent and leaves no space in the
    last segment: a path that went through it once (without root and
    extension) comes out unchanged when it goes through it again, and
    [split] finds no space in its last segment. *)
Theorem force_valid_idempotent (texture : string) :
  full_texture_path None "" true (full_texture_path None "" true texture)
  = full_texture_path None "" true texture
  /\ Py.contains " "%char
       (snd (PosixPath.split (full_texture_path None "" true texture))) = false.
Proof.
  destruct (PathMore.path_decomp texture) as (dir & seg & -> & Hseg & Hdir).
  rewrite (@SanitiseFacts.sanitised_decomp dir seg Hseg Hdir).
  assert (Hseg' : Py.contains "/"%char (Py.replace " "%char "_"%char seg) = false)
    by now rewrite SanitiseFacts.contains_replace.
  pose proof (@PathMore.collapse_trailing_shape dir Hdir) as Hdir'.
  split.
  - rewrite (@SanitiseFacts.sanitised_decomp _ _ Hseg' Hdir').
    now rewrite SanitiseFacts.collapse_trailing_idempotent,
      SanitiseFacts.replace_idempotent.
  - rewrite (@PathFacts.split_dir_seg _ _ Hseg' Hdir'). cbn [snd].
    apply SanitiseFacts.replace_no_space.
Qed.

(** ** Whole models *)

Section ModelMaterials.

Variable mtl_text : MtlEvent -> string.

Lemma write_model_to_mtl_loop_writable (l : list MtrlChunk)
    (texture_root texture_ext : option string) :
  Forall writable l ->
  forall (written : Z) (s : list MtlEvent),
    write_model_to_mtl_loop mtl_text l texture_root texture_ext written s
    = ((s ++ materials_events l texture_root texture_ext)%list,
       Return (written
               + text_length mtl_text (materials_events l texture_root texture_ext))%Z).
Proof.
  induction 1 as [|mtrl rest Hw _ IH]; intros written s.
  - cbn. unfold ret. rewrite app_nil_r. do 2 f_equal. lia.
  - cbn [write_model_to_mtl_loop materials_events flat_map].
    rewrite (bind_return _ _ _
               (write_mtrl_to_mtl_writable mtl_text texture_root texture_ext true s Hw)).
    rewrite IH. fold (materials_events rest texture_root texture_ext).
    rewrite text_length_app, <- app_assoc. do 2 f_equal. lia.
Qed.

Lemma write_model_to_mtl_loop_return (l : list MtrlChunk)
    (texture_root texture_ext : option string) :
  forall (written : Z) (s s' : list MtlEvent) (r : Z),
    write_model_to_mtl_loop mtl_text l texture_root texture_ext written s
    = (s', Return r) ->
    Forall writable l.
Proof.
  induction l as [|mtrl rest IH]; intros written s s' r H; [constructor|].
  cbn [write_model_to_mtl_loop] in H. unfold bind at 1 in H.
  destruct (write_mtrl_to_mtl mtl_text mtrl texture_root texture_ext true s)
    as [s1 [n|e]] eqn:E; [|discriminate H].
  constructor.
  - apply (@write_mtrl_to_mtl_return_writable mtl_text mtrl texture_root texture_ext
             true s n). now rewrite E.
  - exact (IH _ _ _ _ H).
Qed.

Lemma write_model_to_mtl_loop_stops (good rest : list MtrlChunk) (bad : MtrlChunk)
    (texture_root texture_ext : option string) :
  Forall writable good ->
  ~ writable bad ->
  forall (written : Z) (s : list MtlEvent),
  exists e,
    write_model_to_mtl_loop mtl_text (good ++ bad :: rest) texture_root texture_ext
      written s
    = (fst (write_mtrl_to_mtl mtl_text bad texture_root texture_ext true
              (s ++ materials_events good texture_root texture_ext)%list),
       Raise e).
Proof.
  intros Hgood Hbad. induction Hgood as [|mtrl l Hw _ IH]; intros written s.
  - cbn [app materials_events flat_map write_model_to_mtl_loop].
    rewrite app_nil_r.
    destruct (write_mtrl_to_mtl_not_writable mtl_text texture_root texture_ext true s
                Hbad) as [e He].
    exists e. unfold bind.
    destruct (write_mtrl_to_mtl mtl_text bad texture_root texture_ext true s)
      as [s1 o]. cbn [snd] in He. subst o. reflexivity.
  - cbn [app write_model_to_mtl_loop materials_events flat_map].
    rewrite (bind_return _ _ _
               (write_mtrl_to_mtl_writable mtl_text texture_root texture_ext true s Hw)).
    destruct (IH (written
                  + text_length mtl_text
                      (material_events' mtrl texture_root texture_ext true))%Z
                 (s ++ material_events' mtrl texture_root texture_ext true)%list)
      as [e He].
    exists e. rewrite He. fold (materials_events l texture_root texture_ext).
    now rewrite <- app_assoc.
Qed.

Variable scalar : Type.

(** X13: when [write_model_to_mtl] returns, every material of the model
    was one it gets through, the stream has grown by the directives of the
    materials in order, and the result is the number of characters the
    call added to the stream. *)
Theorem write_model_to_mtl_result (chunk : ModelChunky scalar)
    (texture_root texture_ext : option string) (s s' : list MtlEvent) (r : Z) :
  write_model_to_mtl mtl_text chunk texture_root texture_ext s = (s', Return r) ->
  Forall writable (mtrls chunk)
  /\ s' = (s ++ materials_events (mtrls chunk) texture_root texture_ext)%list
  /\ r = (text_length mtl_text s' - text_length mtl_text s)%Z.
Proof.
  unfold write_model_to_mtl. intros H.
  pose proof (write_model_to_mtl_loop_return _ _ _ _ _ H) as Hw.
  rewrite (write_model_to_mtl_loop_writable texture_root texture_ext Hw) in H.
  injection H as <- <-. split; [exact Hw|]. split; [reflexivity|].
  rewrite text_length_app. lia.
Qed.

(** X14: [write_model_to_mtl] stops at the first material it does not get
    through and raises. The materials before it are in the stream in
    full, the failing one as far as [write_mtrl_to_mtl] got with it, and
    the materials after it are not written. *)
Theorem write_model_to_mtl_stops_at_first_failure (good rest : list MtrlChunk)
    (bad : MtrlChunk) (meshes : list (TrimDataChunk scalar))
    (texture_root texture_ext : option string) (s : list MtlEvent) :
  Forall writable good ->
  ~ writable bad ->
  exists e,
    write_model_to_mtl mtl_text {| meshs := meshes; mtrls := good ++ bad :: rest |}
      texture_root texture_ext s
    = (fst (write_mtrl_to_mtl mtl_text bad texture_root texture_ext true
              (s ++ materials_events good texture_root texture_ext)%list),
       Raise e).
Proof.
  intros Hgood Hbad. unfold write_model_to_mtl. cbn [mtrls].
  now apply write_model_to_mtl_loop_stops.
Qed.

End ModelMaterials.

Lemma write_model_to_mtl_result_witness :
  Forall writable [MaterialSamples.rifle]
  /\ [DefaultTexture "rifle"; TextureDiffuse "tex/rifle_d"; TextureAlpha "tex/rifle_d"]
     = ([] ++ materials_events [MaterialSamples.rifle] None None)%list
  /\ 3%Z = (text_length MaterialSamples.one_char
              [DefaultTexture "rifle"; TextureDiffuse "tex/rifle_d";
               TextureAlpha "tex/rifle_d"]
            - text_length MaterialSamples.one_char [])%Z.
Proof.
  exact (@write_model_to_mtl_result MaterialSamples.one_char Z
           {| meshs := []; mtrls := [MaterialSamples.rifle] |} None None []
           [DefaultTexture "rifle"; TextureDiffuse "tex/rifle_d";
            TextureAlpha "tex/rifle_d"] 3%Z eq_refl).
Defined.

Lemma rifle_writable : writable MaterialSamples.rifle.
Proof.
  split; [left; reflexivity|].
  constructor; [|constructor]. intros _. now exists Diffuse.
Qed.

Lemma terrain_not_writable : ~ writable MaterialSamples.terrain.
Proof. intros [[H|H] _]; discriminate H. Qed.

Lemma write_model_to_mtl_stops_at_first_failure_witness :
  exists e,
    write_model_to_mtl MaterialSamples.one_char
      {| meshs := @nil (TrimDataChunk Z);
         mtrls := [MaterialSamples.rifle] ++ MaterialSamples.terrain
                    :: [MaterialSamples.helmet] |}
      None None []
    = (fst (write_mtrl_to_mtl MaterialSamples.one_char MaterialSamples.terrain
              None None true
              ([] ++ materials_events [MaterialSamples.rifle] None None)%list),
       Raise e).
Proof.
  apply (@write_model_to_mtl_stops_at_first_failure MaterialSamples.one_char Z
           [MaterialSamples.rifle] [MaterialSamples.helmet] MaterialSamples.terrain
           [] None None []).
  - constructor; [exact rifle_writable | constructor].
  - exact terrain_not_writable.
Defined.

Section WholeModel.

Variable mtl_text : MtlEvent -> string.
Variable scalar : Type.

(** Whatever happens, the loop of [write_model_to_obj] only adds to the
    stream. *)
Lemma write_model_loop_extends (l : list (TrimDataChunk scalar)) :
  forall v_offset (s : list (ObjEvent scalar)),
  exists events, fst (write_model_loop l v_offset s) = (s ++ events)%list.
Proof.
  induction l as [|chunk rest IH]; intros v_offset s.
  - exists []. cbn. now rewrite app_nil_r.
  - cbn [write_model_loop].
    destruct (unpack2 (name_source None (material_name chunk))) as [[p label]|e] eqn:E.
    + rewrite (bind_return _ _ _
                 (write_trim_data_to_obj_return chunk None v_offset true true s E)).
      destruct (IH (v_offset + (v_offset + vertex_count chunk))%Z
                   (s ++ trim_events chunk label v_offset)%list) as [events Hev].
      exists (trim_events chunk label v_offset ++ events)%list.
      now rewrite Hev, app_assoc.
    + rewrite (bind_raise _ _ _
                 (write_trim_data_to_obj_raise chunk None v_offset true true s E)).
      cbn [fst]. eauto.
Qed.

Lemma write_model_loop_face_offsets (l : list (TrimDataChunk scalar)) :
  Forall (@has_separator scalar) l ->
  forall v_offset (s : list (ObjEvent scalar)),
    face_offsets (fst (write_model_loop l v_offset s))
    = (face_offsets s ++ face_offsets_of l (offsets_passed l v_offset))%list.
Proof.
  induction 1 as [|chunk rest Hsep _ IH]; intros v_offset s.
  - cbn. now rewrite app_nil_r.
  - destruct (name_source_derived _ Hsep) as (p & q & _ & _ & Hname).
    cbn [write_model_loop offsets_passed face_offsets_of].
    rewrite (bind_return _ _ _
               (write_trim_data_to_obj_return chunk None v_offset true true s Hname)).
    rewrite IH, face_offsets_app, face_offsets_trim. now rewrite <- app_assoc.
Qed.

(** X15: on a model whose material names all have a dot, the faces of the
    sub-meshes are written, in order, under the offsets the loop of
    [write_model_to_obj] computes: each offset is twice the previous one
    plus the previous sub-mesh's vertex count. For the first two
    sub-meshes these are the numbers of vertices written before them. *)
Theorem write_model_to_obj_face_offsets (chunk : ModelChunky scalar)
    (s : list (ObjEvent scalar)) :
  Forall (@has_separator scalar) (meshs chunk) ->
  face_offsets (fst (write_model_to_obj chunk s))
  = (face_offsets s
       ++ face_offsets_of (meshs chunk) (offsets_passed (meshs chunk) 0))%list
  /\ firstn 2 (offsets_passed (meshs chunk) 0)
     = firstn 2 (vertices_before (meshs chunk) 0).
Proof.
  intros Hsep. split.
  - now apply write_model_loop_face_offsets.
  - destruct (meshs chunk) as [|a [|b l]]; reflexivity.
Qed.

(** X16: [dump_model_as_obj] writes the material-library reference first,
    whatever follows. If a sub-mesh has a material name without a dot,
    the call raises ValueError and the material stream is left as it was.
    If all sub-meshes have one, the material stream is what
    [write_model_to_mtl] makes of it, and the call returns exactly when
    every material is one [write_mtrl_to_mtl] gets through. *)
Theorem dump_model_as_obj_order (chunk : ModelChunky scalar) (mtl_path : string)
    (texture_root texture_ext : option string)
    (obj_stream : list (ObjEvent scalar)) (mtl_stream : list MtlEvent) :
  let result := dump_model_as_obj mtl_text chunk mtl_path texture_root texture_ext
                  obj_stream mtl_stream in
  (exists events,
      fst (fst result) = (obj_stream ++ MaterialLibrary mtl_path :: events)%list)
  /\ (forall good bad rest,
         meshs chunk = (good ++ bad :: rest)%list ->
         Forall (@has_separator scalar) good ->
         Py.contains "."%char (material_name bad) = false ->
         snd (fst result) = mtl_stream
         /\ snd result = Raise (ValueError (NotEnoughValues 2 1)))
  /\ (Forall (@has_separator scalar) (meshs chunk) ->
      snd (fst result)
      = fst (write_model_to_mtl mtl_text chunk texture_root texture_ext mtl_stream)
      /\ (snd result = Return tt <-> Forall writable (mtrls chunk))).
Proof.
  intros result. subst result. unfold dump_model_as_obj, write_mtllib_to_obj.
  rewrite bind_emit. unfold write_model_to_obj.
  set (s1 := (obj_stream ++ [MaterialLibrary mtl_path])%list).
  split; [|split].
  - destruct (write_model_loop_extends (meshs chunk) 0%Z s1) as [events Hev].
    exists events.
    destruct (write_model_loop (meshs chunk) 0 s1) as [obj' [r|e]];
      cbn [fst] in Hev; subst obj'.
    + destruct (write_model_to_mtl mtl_text chunk texture_root texture_ext mtl_stream)
        as [mtl' [r'|e']]; cbn [fst]; unfold s1; now rewrite <- app_assoc.
    + cbn [fst]. unfold s1. now rewrite <- app_assoc.
  - intros good bad rest Hmeshs Hgood Hbad. rewrite Hmeshs.
    rewrite (write_model_loop_app (bad :: rest) Hgood). cbn [write_model_loop].
    rewrite (bind_raise _ _ _
               (write_trim_data_to_obj_raise bad None _ true true _
                  (name_source_underivable _ Hbad))).
    now split.
  - intros Hsep.
    pose proof (write_model_loop_return Hsep 0%Z s1) as Hret.
    destruct (write_model_loop (meshs chunk) 0 s1) as [obj' o].
    cbn [snd] in Hret. subst o.
    destruct (write_model_to_mtl mtl_text chunk texture_root texture_ext mtl_stream)
      as [mtl' [r'|e']] eqn:E; cbn [fst snd].
    + split; [reflexivity|]. split; [|reflexivity].
      intros _. unfold write_model_to_mtl in E.
      exact (write_model_to_mtl_loop_return _ _ _ _ _ _ E).
    + split; [reflexivity|]. split; [discriminate|].
      intros Hw. unfold write_model_to_mtl in E.
      rewrite (write_model_to_mtl_loop_writable mtl_text texture_root texture_ext Hw)
        in E.
      discriminate E.
Qed.

End WholeModel.

Lemma write_model_to_obj_face_offsets_witness :
  face_offsets (fst (write_model_to_obj Samples.three_meshes []))
  = [0; 1; 3]%Z
  /\ [0; 1]%Z = [0; 1]%Z.
Proof.
  apply (@write_model_to_obj_face_offsets Z Samples.three_meshes []).
  repeat constructor.
Defined.

Lemma dump_model_as_obj_order_witness :
  snd (fst (dump_model_as_obj MaterialSamples.one_char
              {| meshs := [Samples.point_mesh; Samples.plain_mesh];
                 mtrls := [MaterialSamples.rifle] |}
              "unit.mtl" None None [] []))
  = []
  /\ snd (dump_model_as_obj MaterialSamples.one_char
            {| meshs := [Samples.point_mesh; Samples.plain_mesh];
               mtrls := [MaterialSamples.rifle] |}
            "unit.mtl" None None [] [])
     = Raise (ValueError (NotEnoughValues 2 1)).
Proof.
  apply (proj1 (proj2 (@dump_model_as_obj_order MaterialSamples.one_char Z
                         {| meshs := [Samples.point_mesh; Samples.plain_mesh];
                            mtrls := [MaterialSamples.rifle] |}
                         "unit.mtl" None None [] []))
           [Samples.point_mesh] Samples.plain_mesh []).
  - reflexivity.
  - constructor; [reflexivity | constructor].
  - reflexivity.
Defined.

Section VerticesWritten.

Variable scalar : Type.

Lemma positions_written_app (a b : list (ObjEvent scalar)) :
  positions_written (a ++ b) = (positions_written a ++ positions_written b)%list.
Proof.
  induction a as [|e a IH]; [reflexivity|].
  destruct e; cbn [app positions_written]; rewrite IH; reflexivity.
Qed.

Lemma normals_written_app (a b : list (ObjEvent scalar)) :
  normals_written (a ++ b) = (normals_written a ++ normals_written b)%list.
Proof.
  induction a as [|e a IH]; [reflexivity|].
  destruct e; cbn [app normals_written]; rewrite IH; reflexivity.
Qed.

Lemma uvs_written_app (a b : list (ObjEvent scalar)) :
  uvs_written (a ++ b) = (uvs_written a ++ uvs_written b)%list.
Proof.
  induction a as [|e a IH]; [reflexivity|].
  destruct e; cbn [app uvs_written]; rewrite IH; reflexivity.
Qed.

Lemma written_faces (v_offset : Z) (ts : list (Z * Z * Z)) :
  positions_written (flat_map (face_events scalar v_offset) ts) = []
  /\ normals_written (flat_map (face_events scalar v_offset) ts) = []
  /\ uvs_written (flat_map (face_events scalar v_offset) ts) = [].
Proof.
  induction ts as [|[[i j] k] ts (IHp & IHn & IHu)]; [now repeat split|].
  cbn [flat_map face_events app positions_written normals_written uvs_written].
  now repeat split.
Qed.

Lemma written_vertices (vs : list (Vertex scalar)) :
  positions_written (flat_map (@vertex_events scalar) vs) = map (@position scalar) vs
  /\ normals_written (flat_map (@vertex_events scalar) vs) = map (@normal scalar) vs
  /\ uvs_written (flat_map (@vertex_events scalar) vs) = map (@uv scalar) vs.
Proof.
  induction vs as [|[[[x y] z] [[nx ny] nz] [tu tv]] vs (IHp & IHn & IHu)];
    [now repeat split|].
  cbn [flat_map vertex_events position normal uv app map
       positions_written normals_written uvs_written].
  rewrite IHp, IHn, IHu. now repeat split.
Qed.

(** X17: when [write_trim_data_to_obj] returns, it has handed every vertex
    of the sub-mesh to the writer exactly once and in order: the
    positions, the normals and the texture coordinates it added to the
    stream are those of the vertex list. *)
Theorem write_trim_data_to_obj_vertices (chunk : TrimDataChunk scalar)
    (name : option string) (v_offset : Z) (validate axis_fix : bool)
    (s s' : list (ObjEvent scalar)) (r : Z) :
  write_trim_data_to_obj chunk name v_offset validate axis_fix s = (s', Return r) ->
  positions_written s'
  = (positions_written s ++ map (@position scalar) (vertexes chunk))%list
  /\ normals_written s'
     = (normals_written s ++ map (@normal scalar) (vertexes chunk))%list
  /\ uvs_written s' = (uvs_written s ++ map (@uv scalar) (vertexes chunk))%list.
Proof.
  destruct (unpack2 (name_source name (material_name chunk))) as [[p label]|e] eqn:E.
  - rewrite (write_trim_data_to_obj_return chunk name v_offset validate axis_fix s E).
    intros H. injection H as <- _.
    destruct (written_vertices (vertexes chunk)) as (Hp & Hn & Hu).
    destruct (written_faces v_offset (triangles (indexes chunk))) as (Fp & Fn & Fu).
    unfold trim_events, header_events, material_events.
    rewrite !positions_written_app, !normals_written_app, !uvs_written_app.
    rewrite Hp, Hn, Hu, Fp, Fn, Fu.
    cbn [positions_written normals_written uvs_written app].
    now rewrite !app_nil_r.
  - rewrite (write_trim_data_to_obj_raise chunk name v_offset validate axis_fix s E).
    discriminate.
Qed.

End VerticesWritten.

Lemma write_trim_data_to_obj_vertices_witness :
  positions_written
    (fst (write_trim_data_to_obj Samples.point_mesh None 0 true true []))
  = ([] ++ map (@position Z) (vertexes Samples.point_mesh))%list
  /\ normals_written
       (fst (write_trim_data_to_obj Samples.point_mesh None 0 true true []))
     = ([] ++ map (@normal Z) (vertexes Samples.point_mesh))%list
  /\ uvs_written
       (fst (write_trim_data_to_obj Samples.point_mesh None 0 true true []))
     = ([] ++ map (@uv Z) (vertexes Samples.point_mesh))%list.
Proof.
  exact (@write_trim_data_to_obj_vertices Z Samples.point_mesh None 0%Z true true []
           (fst (write_trim_data_to_obj Samples.point_mesh None 0 true true []))
           1%Z eq_refl).
Defined.
